(** * Document AI toolbox utilities: [create_batches] and
    [document_type_to_processor_type]

    A shallow embedding of
    [google/cloud/documentai_toolbox/utilities/utilities.py] and the
    properties its specification states about it.

    Python values are modelled as follows: [str] is [string], [int] is [Z]
    (Python integers are unbounded), a [list] is a [list], the dictionary
    literal of the resolver is a [gmap string string], the set
    [constants.VALID_MIME_TYPES] is a [gset string].  The effects of
    [create_batches] (obtaining the storage client, the listing call, the
    [print] diagnostics) are recorded in an event trace; an exception ends
    the run with [Raise]. *)

From Stdlib Require Import ZArith Lia.
From stdpp Require Import base strings gmap list pretty.

Open Scope string_scope.
Open Scope list_scope.

(** ** Python string helpers *)

(** [s.endswith(suffix)]: [s] is [suffix], or the tail of [s] ends with it. *)
Fixpoint endswith (s suffix : string) : bool :=
  if String.eqb s suffix then true
  else match s with
       | EmptyString => false
       | String _ s' => endswith s' suffix
       end.

(** [str(n)] for an integer, as an f-string formats it. *)
Definition str_int (n : Z) : string := pretty n.

(** ** Exceptions, outcomes and events *)

(** The exceptions that can leave the module: the [ValueError] it raises
    itself, and whatever the storage collaborator raises (class and
    message). *)
Inductive exception : Type :=
  | ValueError (msg : string)
  | CollaboratorError (cls msg : string).

Inductive outcome (A : Type) : Type :=
  | Return (a : A)
  | Raise (e : exception).
Arguments Return {A} a.
Arguments Raise {A} e.

(** What a call does to the outside world, in order. *)
Inductive event : Type :=
  | GetStorageClient
  | ListBlobs (bucket prefix : string)
  | Print (line : string).

(** ** The storage collaborator *)

Module Blob.
(** A storage object as the listing yields it. *)
Record t : Type := make { name : string; content_type : string; size : Z }.
End Blob.

(** The lazy sequence [list_blobs] returns, seen through the iterator
    protocol: each [next] yields a blob, ends the iteration, or raises. *)
Inductive blob_iterator : Type :=
  | StopIteration
  | Yield (blob : Blob.t) (rest : blob_iterator)
  | Raises (e : exception).

Record StorageClient : Type :=
  { list_blobs : string -> string -> blob_iterator }.

(** An iterator that yields [blobs] and then behaves as [rest]. *)
Fixpoint yield_all (blobs : list Blob.t) (rest : blob_iterator) : blob_iterator :=
  match blobs with
  | [] => rest
  | b :: blobs' => Yield b (yield_all blobs' rest)
  end.

(** The blobs an iterator yields before it stops or raises. *)
Fixpoint yielded (it : blob_iterator) : list Blob.t :=
  match it with
  | Yield b rest => b :: yielded rest
  | _ => []
  end.

(** How an iterator ends: [None] for exhaustion, [Some e] for a failure. *)
Fixpoint failure (it : blob_iterator) : option exception :=
  match it with
  | StopIteration => None
  | Yield _ rest => failure rest
  | Raises e => Some e
  end.

(** ** The request-shaping messages of [documentai] *)

Module documentai.
Record GcsDocument : Type :=
  { gcs_uri : string; mime_type : string }.
Record GcsDocuments : Type :=
  { documents : list GcsDocument }.
Record BatchDocumentsInputConfig : Type :=
  { gcs_documents : GcsDocuments }.
End documentai.
Import documentai.

(** The documents of a batch descriptor. *)
Definition docs_of (cfg : BatchDocumentsInputConfig) : list GcsDocument :=
  documents (gcs_documents cfg).

(** ** [document_type_to_processor_type] *)

(** The entries of the [document_map] literal, in source order. *)
Definition document_map_items : list (string * string) :=
  [
    (* Procurement Documents *)
    ("air_travel_statement", "EXPENSE_PROCESSOR");
    ("car_rental_statement", "EXPENSE_PROCESSOR");
    ("credit_card_slip", "EXPENSE_PROCESSOR");
    ("credit_note", "INVOICE_PROCESSOR");
    ("debit_note", "INVOICE_PROCESSOR");
    ("ground_transportation_statement", "EXPENSE_PROCESSOR");
    ("hotel_statement", "EXPENSE_PROCESSOR");
    ("invoice_statement", "INVOICE_PROCESSOR");
    ("purchase_order", "PURCHASE_ORDER_PROCESSOR");
    ("receipt_statement", "EXPENSE_PROCESSOR");
    ("restaurant_statement", "EXPENSE_PROCESSOR");
    ("utility_statement", "UTILITY_PROCESSOR");
    (* Lending Documents *)
    ("1003", "FORM_1003_PROCESSOR");
    ("1003_2009", "FORM_1003_PROCESSOR");
    ("1005_1996", "FORM_1005_PROCESSOR");
    ("1040", "FORM_1040_PROCESSOR");
    ("1040_2018", "FORM_1040_PROCESSOR");
    ("1040_2019", "FORM_1040_PROCESSOR");
    ("1040_2020", "FORM_1040_PROCESSOR");
    ("1040_2021", "FORM_1040_PROCESSOR");
    ("1040nr", "FORM_1040NR_PROCESSOR");
    ("1040nr_2018", "FORM_1040NR_PROCESSOR");
    ("1040nr_2019", "FORM_1040NR_PROCESSOR");
    ("1040nr_2020", "FORM_1040NR_PROCESSOR");
    ("1040nr_2021", "FORM_1040NR_PROCESSOR");
    ("1040sc", "FORM_1040SCH_C_PROCESSOR");
    ("1040sc_2018", "FORM_1040SCH_C_PROCESSOR");
    ("1040sc_2019", "FORM_1040SCH_C_PROCESSOR");
    ("1040sc_2020", "FORM_1040SCH_C_PROCESSOR");
    ("1040sc_2021", "FORM_1040SCH_C_PROCESSOR");
    ("1040sr", "FORM_1040SR_PROCESSOR");
    ("1040sr_2018", "FORM_1040SR_PROCESSOR");
    ("1040sr_2019", "FORM_1040SR_PROCESSOR");
    ("1040sr_2020", "FORM_1040SR_PROCESSOR");
    ("1040sr_2021", "FORM_1040SR_PROCESSOR");
    ("1065", "FORM_1065_PROCESSOR");
    ("1065_2018", "FORM_1065_PROCESSOR");
    ("1065_2019", "FORM_1065_PROCESSOR");
    ("1065_2020", "FORM_1065_PROCESSOR");
    ("1065_2021", "FORM_1065_PROCESSOR");
    ("1076_2016", "FORM_1076_PROCESSOR");
    ("1099div", "FORM_1099DIV_PROCESSOR");
    ("1099div_2018", "FORM_1099DIV_PROCESSOR");
    ("1099div_2019", "FORM_1099DIV_PROCESSOR");
    ("1099div_2020", "FORM_1099DIV_PROCESSOR");
    ("1099div_2021", "FORM_1099DIV_PROCESSOR");
    ("1099g", "FORM_1099G_PROCESSOR");
    ("1099g_2018", "FORM_1099G_PROCESSOR");
    ("1099g_2019", "FORM_1099G_PROCESSOR");
    ("1099g_2020", "FORM_1099G_PROCESSOR");
    ("1099g_2021", "FORM_1099G_PROCESSOR");
    ("1099int", "FORM_1099INT_PROCESSOR");
    ("1099int_2018", "FORM_1099INT_PROCESSOR");
    ("1099int_2019", "FORM_1099INT_PROCESSOR");
    ("1099int_2020", "FORM_1099INT_PROCESSOR");
    ("1099int_2021", "FORM_1099INT_PROCESSOR");
    ("1099misc", "FORM_1099MISC_PROCESSOR");
    ("1099misc_2018", "FORM_1099MISC_PROCESSOR");
    ("1099misc_2019", "FORM_1099MISC_PROCESSOR");
    ("1099misc_2020", "FORM_1099MISC_PROCESSOR");
    ("1099misc_2021", "FORM_1099MISC_PROCESSOR");
    ("1099nec", "FORM_1099NEC_PROCESSOR");
    ("1099nec_2018", "FORM_1099NEC_PROCESSOR");
    ("1099nec_2019", "FORM_1099NEC_PROCESSOR");
    ("1099nec_2020", "FORM_1099NEC_PROCESSOR");
    ("1099nec_2021", "FORM_1099NEC_PROCESSOR");
    ("1099r", "FORM_1099R_PROCESSOR");
    ("1099r_2018", "FORM_1099R_PROCESSOR");
    ("1099r_2019", "FORM_1099R_PROCESSOR");
    ("1099r_2020", "FORM_1099R_PROCESSOR");
    ("1099r_2021", "FORM_1099R_PROCESSOR");
    ("1099sb", "FORM_1040SCH_B_PROCESSOR");
    ("1099sb_2018", "FORM_1040SCH_B_PROCESSOR");
    ("1099sb_2019", "FORM_1040SCH_B_PROCESSOR");
    ("1099sb_2020", "FORM_1040SCH_B_PROCESSOR");
    ("1099sb_2021", "FORM_1040SCH_B_PROCESSOR");
    ("1099sd", "FORM_1040SCH_D_PROCESSOR");
    ("1099sd_2018", "FORM_1040SCH_D_PROCESSOR");
    ("1099sd_2019", "FORM_1040SCH_D_PROCESSOR");
    ("1099sd_2020", "FORM_1040SCH_D_PROCESSOR");
    ("1099sd_2021", "FORM_1040SCH_D_PROCESSOR");
    ("1099se", "FORM_1040SCH_E_PROCESSOR");
    ("1099se_2018", "FORM_1040SCH_E_PROCESSOR");
    ("1099se_2019", "FORM_1040SCH_E_PROCESSOR");
    ("1099se_2020", "FORM_1040SCH_E_PROCESSOR");
    ("1099se_2021", "FORM_1040SCH_E_PROCESSOR");
    ("1099ssa", "FORM_SSA1099_PROCESSOR");
    ("1099ssa_2018", "FORM_SSA1099_PROCESSOR");
    ("1099ssa_2019", "FORM_SSA1099_PROCESSOR");
    ("1099ssa_2020", "FORM_SSA1099_PROCESSOR");
    ("1099ssa_2021", "FORM_SSA1099_PROCESSOR");
    ("1120", "FORM_1120_PROCESSOR");
    ("1120_2018", "FORM_1120_PROCESSOR");
    ("1120_2019", "FORM_1120_PROCESSOR");
    ("1120_2020", "FORM_1120_PROCESSOR");
    ("1120_2021", "FORM_1120_PROCESSOR");
    ("1120s", "FORM_1120S_PROCESSOR");
    ("1120s_2018", "FORM_1120S_PROCESSOR");
    ("1120s_2019", "FORM_1120S_PROCESSOR");
    ("1120s_2020", "FORM_1120S_PROCESSOR");
    ("1120s_2021", "FORM_1120S_PROCESSOR");
    ("1_4_Family_Rider_3170", "FORM_FAMILY_RIDER_PROCESSOR");
    ("3108_Adjustable_Rate_Rider", "FORM_ADJUSTABLE_RIDER_PROCESSOR");
    ("3140_Condominium_Rider", "FORM_CONDOMINIUM_RIDER_PROCESSOR");
    ("3190_Balloon_Rider", "FORM_BALLOON_RIDER_PROCESSOR");
    ("3890_Second_Home_Rider", "FORM_SECOND_HOME_RIDER_PROCESSOR");
    ("4506_T", "FORM_4506T_PROCESSOR");
    ("4506_T_2018", "FORM_4506T_PROCESSOR");
    ("4506_T_2019", "FORM_4506T_PROCESSOR");
    ("4506_T_2020", "FORM_4506T_PROCESSOR");
    ("4506_T_2021", "FORM_4506T_PROCESSOR");
    ("4506_T_EZ", "FORM_4506T_EZ_PROCESSOR");
    ("4506_T_EZ_2018", "FORM_4506T_EZ_PROCESSOR");
    ("4506_T_EZ_2019", "FORM_4506T_EZ_PROCESSOR");
    ("4506_T_EZ_2020", "FORM_4506T_EZ_PROCESSOR");
    ("4506_T_EZ_2021", "FORM_4506T_EZ_PROCESSOR");
    ("account_statement_bank", "BANK_STATEMENT_PROCESSOR");
    ("account_statement_investment_and_retirement", "RETIREMENT_INVESTMENT_STATEMENT_PROCESSOR");
    ("dhs_flood_certification", "FORM_FLOOD_CERTIFICATE_PROCESSOR");
    ("f11_12956_2017", "FORM_F11_12956_PROCESSOR");
    ("hud_54114", "FORM_HUD54114_PROCESSOR");
    ("hud_92051", "FORM_HUD92051_PROCESSOR");
    ("hud_92541", "FORM_HUD92541_PROCESSOR");
    ("hud_92544", "FORM_HUD92544_PROCESSOR");
    ("hud_92800", "FORM_HUD92800_PROCESSOR");
    ("hud_92900a", "FORM_HUD92900A_PROCESSOR");
    ("hud_92900b", "FORM_HUD92900B_PROCESSOR");
    ("hud_92900lt", "FORM_HUD92900LT_PROCESSOR");
    ("hud_92900ws", "FORM_HUD92900WS_PROCESSOR");
    ("mortgage_statements", "MORTGAGE_STATEMENT_PROCESSOR");
    ("payslip", "PAYSTUB_PROCESSOR");
    ("property_insurance", "PROPERTY_INSURANCE_PROCESSOR");
    ("pud_rider", "FORM_PUD_RIDER_PROCESSOR");
    ("revocable_trust_rider", "FORM_REVOCABLE_TRUST_RIDER_PROCESSOR");
    ("ssa_89", "FORM_SSA89_PROCESSOR");
    ("ssa_89_2018", "FORM_SSA89_PROCESSOR");
    ("ssa_89_2019", "FORM_SSA89_PROCESSOR");
    ("ssa_89_2020", "FORM_SSA89_PROCESSOR");
    ("ssa_89_2021", "FORM_SSA89_PROCESSOR");
    ("ucc_financing_statement", "FORM_UCC1_PROCESSOR");
    ("usda_ad_3030", "FORM_USDA_CONDITIONAL_COMMITMENT_PROCESSOR");
    ("vba_26_0551_2004", "FORM_VBA26_0551_PROCESSOR");
    ("vba_26_8923_2021", "FORM_VBA26_8923_PROCESSOR");
    ("w2", "FORM_W2_PROCESSOR");
    ("w2_2018", "FORM_W2_PROCESSOR");
    ("w2_2019", "FORM_W2_PROCESSOR");
    ("w2_2020", "FORM_W2_PROCESSOR");
    ("w2_2021", "FORM_W2_PROCESSOR");
    ("w9", "FORM_W9_PROCESSOR");
    ("w9_2017", "FORM_W9_PROCESSOR");
    ("w9_2018", "FORM_W9_PROCESSOR");
    ("w9_2019", "FORM_W9_PROCESSOR");
    ("w9_2020", "FORM_W9_PROCESSOR");
    ("w9_2021", "FORM_W9_PROCESSOR");
    (* Identity Documents *)
    ("us_driver_license", "US_DRIVER_LICENSE_PROCESSOR");
    ("us_passport", "US_PASSPORT_PROCESSOR")
  ].

(** A dictionary literal: the entries are stored left to right, so a later
    entry for a key replaces an earlier one. *)
Definition dict_literal (items : list (string * string)) : gmap string string :=
  fold_left (fun d kv => <[kv.1 := kv.2]> d) items ∅.

Definition document_map : gmap string string :=
  dict_literal document_map_items.

(** [document_map.get(document_type, None)]: [None] is Python's [None]. *)
Definition document_type_to_processor_type (document_type : string)
    : option string :=
  document_map !! document_type.

(** ** A sample configuration and sample listings *)

(** Modelled from the spec: the [constants] module is not part of the
    module under study.  The spec gives the default batch size, 50, which
    the signature takes from [BATCH_MAX_FILES]; it names the file-size
    limit and the set of MIME types without giving them, so the values
    here are samples.  The theorems on [create_batches] hold for every
    configuration; these values only instantiate them. *)
Module constants.
Definition BATCH_MAX_FILES : Z := 50.
Definition BATCH_MAX_FILE_SIZE : Z := 1073741824.
Definition VALID_MIME_TYPES : gset string :=
  {[ "application/pdf"; "image/bmp"; "image/gif"; "image/jpeg";
     "image/png"; "image/tiff"; "image/webp" ]}.
End constants.

(** A client whose listing is [it], whatever the bucket and prefix. *)
Definition client_of (it : blob_iterator) : StorageClient :=
  {| list_blobs := fun _ _ => it |}.

(** The listing of the spec's filtering scenario. *)
Definition scenario_blobs : list Blob.t :=
  [ Blob.make "a.pdf" "application/pdf" 100;
    Blob.make "dir/" "application/x-directory" 0;
    Blob.make "b.txt" "text/plain" 100;
    Blob.make "c.pdf" "application/pdf" 1073741825;
    Blob.make "d.pdf" "application/pdf" 100 ].

(** [n] eligible objects, named [doc0.pdf], [doc1.pdf], ... *)
Definition eligible_blobs (n : nat) : list Blob.t :=
  map (fun i : nat =>
         Blob.make ("doc" +:+ pretty i +:+ ".pdf") "application/pdf" 100)
      (seq 0 n).

(** Clients for the sample listings: the filtering scenario, [n] eligible
    objects, and a listing that fails after the scenario's objects. *)
Definition scenario_client : StorageClient :=
  client_of (yield_all scenario_blobs StopIteration).

Definition eligible_client (n : nat) : StorageClient :=
  client_of (yield_all (eligible_blobs n) StopIteration).

Definition failing_client : StorageClient :=
  client_of (yield_all scenario_blobs
               (Raises (CollaboratorError "ServiceUnavailable" "503"))).

(** ** [create_batches] *)

Section CreateBatches.

(** The configuration constants of [constants], which is not part of the
    module under study. *)
Variable BATCH_MAX_FILES : Z.
Variable BATCH_MAX_FILE_SIZE : Z.
Variable VALID_MIME_TYPES : gset string.

(** The loop state: the sealed [batches] and the in-progress [batch]. *)
Definition loop_state : Type :=
  (list BatchDocumentsInputConfig * list GcsDocument)%type.

(** The [ValueError] of the size check. *)
Definition batch_size_error (batch_size : Z) : exception :=
  ValueError ("Batch size must be less than " +:+ str_int BATCH_MAX_FILES
              +:+ ". You provided " +:+ str_int batch_size +:+ ".").

Definition invalid_mime_message (blob : Blob.t) : string :=
  "Skipping file " +:+ Blob.name blob +:+ ". Invalid Mime Type "
  +:+ Blob.content_type blob +:+ ".".

Definition oversized_message (blob : Blob.t) : string :=
  "Skipping file " +:+ Blob.name blob +:+ ". File size must be less than "
  +:+ str_int BATCH_MAX_FILE_SIZE +:+ " bytes. File size is "
  +:+ str_int (Blob.size blob) +:+ " bytes.".

(** One iteration of [for blob in blob_list]; a [continue] leaves the
    state as it is.  Sealing builds the descriptor from the documents the
    in-progress batch holds at that moment and rebinds [batch] to a fresh
    list, so later appends do not reach a sealed descriptor. *)
Definition loop_body (gcs_bucket_name : string) (batch_size : Z)
    (blob : Blob.t) (st : loop_state) : list event * loop_state :=
  if endswith (Blob.name blob) "/" then ([], st)
  else if negb (bool_decide (Blob.content_type blob ∈ VALID_MIME_TYPES))
  then ([Print (invalid_mime_message blob)], st)
  else if (Blob.size blob >? BATCH_MAX_FILE_SIZE)%Z
  then ([Print (oversized_message blob)], st)
  else
    let st1 : loop_state :=
      if (Z.of_nat (length st.2) =? batch_size)%Z
      then (st.1 ++ [{| gcs_documents := {| documents := st.2 |} |}], [])
      else st in
    ([], (st1.1,
          st1.2 ++ [{| gcs_uri := "gs://" +:+ gcs_bucket_name +:+ "/"
                                  +:+ Blob.name blob;
                       mime_type := Blob.content_type blob |}])).

(** The [for] loop: the iterator is consumed until it stops or raises. *)
Fixpoint for_blobs (gcs_bucket_name : string) (batch_size : Z)
    (blob_list : blob_iterator) (st : loop_state)
    : list event * outcome loop_state :=
  match blob_list with
  | StopIteration => ([], Return st)
  | Raises e => ([], Raise e)
  | Yield blob rest =>
      let step := loop_body gcs_bucket_name batch_size blob st in
      let tail := for_blobs gcs_bucket_name batch_size rest step.2 in
      (step.1 ++ tail.1, tail.2)
  end.

(** [if batch != []: batches.append(...)], then [return batches]. *)
Definition append_last (st : loop_state) : list BatchDocumentsInputConfig :=
  match st.2 with
  | [] => st.1
  | _ :: _ => st.1 ++ [{| gcs_documents := {| documents := st.2 |} |}]
  end.

(** [create_batches]: the size check, then the listing and the loop.
    [batch_size] is an integer; the annotation also allows [None], on
    which the comparison of the size check is a type error. *)
Definition create_batches (storage_client : StorageClient)
    (gcs_bucket_name gcs_prefix : string) (batch_size : Z)
    : list event * outcome (list BatchDocumentsInputConfig) :=
  if (batch_size >? BATCH_MAX_FILES)%Z
  then ([], Raise (batch_size_error batch_size))
  else
    let blob_list := list_blobs storage_client gcs_bucket_name gcs_prefix in
    let run := for_blobs gcs_bucket_name batch_size blob_list ([], []) in
    ([GetStorageClient; ListBlobs gcs_bucket_name gcs_prefix] ++ run.1,
     match run.2 with
     | Return st => Return (append_last st)
     | Raise e => Raise e
     end).

(** The call with [batch_size] left out: the default is
    [constants.BATCH_MAX_FILES]. *)
Definition create_batches_default (storage_client : StorageClient)
    (gcs_bucket_name gcs_prefix : string) :=
  create_batches storage_client gcs_bucket_name gcs_prefix BATCH_MAX_FILES.



(** *** Notions the properties are stated with *)

(** An object passes the three filters of the loop: its name does not end
    in the path separator, its content type is a valid MIME type and its
    size does not exceed the limit. *)
Definition eligible (blob : Blob.t) : Prop :=
  endswith (Blob.name blob) "/" = false
  ∧ Blob.content_type blob ∈ VALID_MIME_TYPES
  ∧ (Blob.size blob ≤ BATCH_MAX_FILE_SIZE)%Z.

#[global] Instance eligible_dec (blob : Blob.t) : Decision (eligible blob).
Proof. unfold eligible. apply _. Defined.

(** The accepted objects of a listing, in listing order. *)
Definition accepted (blobs : list Blob.t) : list Blob.t :=
  filter eligible blobs.

(** The document reference the loop builds for an accepted object. *)
Definition document_for (gcs_bucket_name : string) (blob : Blob.t)
    : GcsDocument :=
  {| gcs_uri := "gs://" +:+ gcs_bucket_name +:+ "/" +:+ Blob.name blob;
     mime_type := Blob.content_type blob |}.

(** What the loop body does with the document of an accepted object: seal
    the in-progress batch when it holds [batch_size] documents, then append
    the document. *)
Definition push (batch_size : Z) (st : loop_state) (doc : GcsDocument)
    : loop_state :=
  if (Z.of_nat (length st.2) =? batch_size)%Z
  then (st.1 ++ [{| gcs_documents := {| documents := st.2 |} |}], [doc])
  else (st.1, st.2 ++ [doc]).

(** The ceiling of [a / b], for [b > 0]. *)
Definition ceil_div (a b : Z) : Z :=
  if (a mod b =? 0)%Z then (a / b)%Z else (a / b + 1)%Z.

(** The batch sizes of the spec's first testable property, for [N]
    eligible objects: [ceil(N / batch_size)] descriptors, each of
    [batch_size] documents except possibly the last, which has
    [N mod batch_size] of them, or [batch_size] when that is zero; no
    descriptor when [N = 0]. *)
Definition batch_count_and_sizes (batch_size N : Z)
    (batches : list BatchDocumentsInputConfig) : Prop :=
  Z.of_nat (length batches) = ceil_div N batch_size
  ∧ (∀ i cfg, batches !! i = Some cfg → S i < length batches →
       Z.of_nat (length (docs_of cfg)) = batch_size)
  ∧ (∀ cfg, last batches = Some cfg →
       Z.of_nat (length (docs_of cfg))
       = if (N mod batch_size =? 0)%Z then batch_size
         else (N mod batch_size)%Z)
  ∧ (N = 0%Z → batches = []).

(** The size invariant of the data model: every descriptor but the last
    has exactly [batch_size] documents, the last has between 1 and
    [batch_size], and none is empty. *)
Definition well_sized (batch_size : Z)
    (batches : list BatchDocumentsInputConfig) : Prop :=
  (∀ i cfg, batches !! i = Some cfg → S i < length batches →
     Z.of_nat (length (docs_of cfg)) = batch_size)
  ∧ (∀ cfg, last batches = Some cfg →
       (1 ≤ Z.of_nat (length (docs_of cfg)) ≤ batch_size)%Z)
  ∧ (∀ cfg, cfg ∈ batches → docs_of cfg ≠ []).

(** [batches] splits [docs] after every [batch_size]-th document: the
    descriptors concatenate to [docs], none is empty, and descriptor [j]
    is the slice [docs[j * batch_size : (j + 1) * batch_size]]. *)
Definition split_every (batch_size : Z) (docs : list GcsDocument)
    (batches : list BatchDocumentsInputConfig) : Prop :=
  concat (map docs_of batches) = docs
  ∧ (∀ cfg, cfg ∈ batches → docs_of cfg ≠ [])
  ∧ (∀ j cfg, batches !! j = Some cfg →
       docs_of cfg
       = take (Z.to_nat batch_size) (drop (j * Z.to_nat batch_size) docs)).

(** The state of the loop after the accepted documents [docs]. *)
Definition batching_invariant (batch_size : Z) (docs : list GcsDocument)
    (st : loop_state) : Prop :=
  concat (map docs_of st.1) ++ st.2 = docs
  ∧ Forall (λ cfg, Z.of_nat (length (docs_of cfg)) = batch_size) st.1
  ∧ (st.2 = [] → st.1 = [])
  ∧ ((1 ≤ batch_size)%Z → (Z.of_nat (length st.2) ≤ batch_size)%Z).

(** The [ListBlobs] events of a trace. *)
Definition is_listing (ev : event) : bool :=
  match ev with ListBlobs _ _ => true | _ => false end.

Definition listing_calls (trace : list event) : nat :=
  length (List.filter is_listing trace).

(** *** String and arithmetic helpers *)

Lemma endswith_spec (s suffix : string) :
  endswith s suffix = true ↔ ∃ p, s = p +:+ suffix.
Proof.
  induction s as [|a s IH]; cbn [endswith].
  - destruct (String.eqb_spec "" suffix) as [<-|Hne].
    + split; intros _; [by exists ""|reflexivity].
    + split; [intros [=]|]. intros [p Hp].
      destruct p; simpl in Hp; [done|discriminate].
  - destruct (String.eqb_spec (String a s) suffix) as [<-|Hne].
    + split; intros _; [by exists ""|reflexivity].
    + rewrite IH. split.
      * intros [p ->]. by exists (String a p).
      * intros [p Hp]. destruct p as [|b p]; simpl in Hp; [done|].
        injection Hp as _ ->. by exists p.
Qed.

(** [ceil_div a b] is the least [q] with [a ≤ q * b]. *)
Lemma ceil_div_spec (a b : Z) :
  (0 < b)%Z → ((ceil_div a b - 1) * b < a ≤ ceil_div a b * b)%Z.
Proof.
  intros Hb. unfold ceil_div.
  pose proof (Z.div_mod a b ltac:(lia)) as Hdiv.
  pose proof (Z.mod_pos_bound a b Hb) as Hmod.
  destruct (Z.eqb_spec (a mod b) 0); nia.
Qed.

Lemma ceil_div_full_plus (b k r : Z) :
  (1 ≤ r ≤ b)%Z → ceil_div (b * k + r) b = (k + 1)%Z.
Proof.
  intros Hr. unfold ceil_div.
  destruct (Z.eq_dec r b) as [->|Hne].
  - replace (b * k + b)%Z with ((k + 1) * b)%Z by lia.
    rewrite Z.mod_mul, Z.div_mul by lia. reflexivity.
  - rewrite (Z.mul_comm b k), Z.add_comm, Z.mod_add, Z.div_add by lia.
    rewrite Z.mod_small, Z.div_small by lia.
    destruct (Z.eqb_spec r 0); lia.
Qed.

Lemma mod_full_plus (b k r : Z) :
  (1 ≤ r ≤ b)%Z →
  (if ((b * k + r) mod b =? 0)%Z then b else ((b * k + r) mod b)%Z) = r.
Proof.
  intros Hr. destruct (Z.eq_dec r b) as [->|Hne].
  - replace (b * k + b)%Z with ((k + 1) * b)%Z by lia.
    rewrite Z.mod_mul by lia. reflexivity.
  - rewrite (Z.mul_comm b k), Z.add_comm, Z.mod_add by lia.
    rewrite Z.mod_small by lia. destruct (Z.eqb_spec r 0); lia.
Qed.

(** *** The loop, one object at a time *)

Lemma loop_body_state (bucket : string) (batch_size : Z) (blob : Blob.t)
    (st : loop_state) :
  (loop_body bucket batch_size blob st).2
  = if decide (eligible blob)
    then push batch_size st (document_for bucket blob) else st.
Proof.
  unfold loop_body, push, document_for.
  destruct (decide (eligible blob)) as [(Hname & Hmime & Hsize)|Hno].
  - rewrite Hname, (bool_decide_eq_true_2 _ Hmime). cbn [negb].
    destruct (Z.gtb_spec (Blob.size blob) BATCH_MAX_FILE_SIZE); [lia|].
    destruct (Z.of_nat (length st.2) =? batch_size)%Z; reflexivity.
  - destruct (endswith (Blob.name blob) "/") eqn:Hname; [reflexivity|].
    destruct (bool_decide (Blob.content_type blob ∈ VALID_MIME_TYPES))
      eqn:Hmime; cbn [negb]; [|reflexivity].
    destruct (Z.gtb_spec (Blob.size blob) BATCH_MAX_FILE_SIZE);
      [reflexivity|].
    exfalso. apply Hno. split_and!; [done| |lia].
    by apply bool_decide_eq_true in Hmime.
Qed.

(** The loop raises what the iterator raises; otherwise it ends in the
    state reached by pushing the accepted documents in listing order. *)
Lemma for_blobs_outcome (bucket : string) (batch_size : Z)
    (it : blob_iterator) (st : loop_state) :
  (for_blobs bucket batch_size it st).2
  = match failure it with
    | Some e => Raise e
    | None =>
        Return (fold_left (push batch_size)
                  (map (document_for bucket) (accepted (yielded it))) st)
    end.
Proof.
  revert st. induction it as [|blob rest IH|e]; intros st;
    cbn [for_blobs failure yielded snd]; try done.
  rewrite IH, loop_body_state. unfold accepted. rewrite filter_cons.
  destruct (failure rest); [done|].
  destruct (decide (eligible blob)); reflexivity.
Qed.

(** The loop issues no listing call of its own. *)
Lemma for_blobs_no_listing (bucket : string) (batch_size : Z)
    (it : blob_iterator) (st : loop_state) :
  listing_calls (for_blobs bucket batch_size it st).1 = 0.
Proof.
  revert st. unfold listing_calls.
  induction it as [|blob rest IH|e]; intros st; cbn; try done.
  rewrite List.filter_app, length_app, IH.
  unfold loop_body.
  repeat match goal with |- context [if ?c then _ else _] => destruct c end;
    reflexivity.
Qed.

Lemma yielded_yield_all (blobs : list Blob.t) (rest : blob_iterator) :
  yielded (yield_all blobs rest) = blobs ++ yielded rest.
Proof. induction blobs as [|b blobs IH]; cbn; [done|by rewrite IH]. Qed.

Lemma failure_yield_all (blobs : list Blob.t) (rest : blob_iterator) :
  failure (yield_all blobs rest) = failure rest.
Proof. induction blobs as [|b blobs IH]; cbn; done. Qed.

(** *** The batching invariant *)

Lemma batching_invariant_init (batch_size : Z) :
  batching_invariant batch_size [] ([], []).
Proof. unfold batching_invariant; cbn. split_and!; [done|constructor|done|lia]. Qed.

Lemma batching_invariant_push (batch_size : Z) (docs : list GcsDocument)
    (st : loop_state) (doc : GcsDocument) :
  batching_invariant batch_size docs st →
  batching_invariant batch_size (docs ++ [doc]) (push batch_size st doc).
Proof.
  intros (Hdocs & Hfull & Hstart & Hbound). unfold batching_invariant, push.
  destruct (Z.eqb_spec (Z.of_nat (length st.2)) batch_size) as [Heq|Hne]; cbn.
  - split_and!.
    + rewrite map_app, concat_app. cbn. rewrite app_nil_r, <- Hdocs.
      reflexivity.
    + apply Forall_app. split; [done|]. by repeat constructor.
    + done.
    + lia.
  - split_and!.
    + by rewrite app_assoc, Hdocs.
    + done.
    + intros Hnil. by apply app_eq_nil in Hnil as [_ ?].
    + intros Hpos. specialize (Hbound Hpos). rewrite length_app. cbn. lia.
Qed.

Lemma batching_invariant_fold (batch_size : Z) (docs : list GcsDocument) :
  batching_invariant batch_size docs
    (fold_left (push batch_size) docs ([], [])).
Proof.
  induction docs as [|doc docs IH] using rev_ind.
  - apply batching_invariant_init.
  - rewrite fold_left_app. cbn. by apply batching_invariant_push.
Qed.

Lemma length_concat_full (batch_size : Z)
    (full : list BatchDocumentsInputConfig) :
  Forall (λ cfg, Z.of_nat (length (docs_of cfg)) = batch_size) full →
  Z.of_nat (length (concat (map docs_of full)))
  = (batch_size * Z.of_nat (length full))%Z.
Proof.
  induction 1 as [|cfg full Hcfg _ IH]; cbn; [lia|].
  rewrite length_app. lia.
Qed.

(** The shape of the returned list: empty when nothing was accepted,
    otherwise full descriptors followed by a non-empty last one. *)
Lemma append_last_shape (batch_size : Z) (docs : list GcsDocument)
    (st : loop_state) :
  batching_invariant batch_size docs st →
  (docs = [] ∧ append_last st = [])
  ∨ ∃ full tail,
      append_last st = full ++ [{| gcs_documents := {| documents := tail |} |}]
      ∧ tail ≠ []
      ∧ Forall (λ cfg, Z.of_nat (length (docs_of cfg)) = batch_size) full
      ∧ concat (map docs_of full) ++ tail = docs
      ∧ ((1 ≤ batch_size)%Z → (Z.of_nat (length tail) ≤ batch_size)%Z).
Proof.
  intros (Hdocs & Hfull & Hstart & Hbound). unfold append_last.
  destruct st as [batches batch]; cbn in *. destruct batch as [|d batch].
  - left. rewrite (Hstart eq_refl) in *. cbn in Hdocs. by subst.
  - right. exists batches, (d :: batch). by split_and!.
Qed.

Lemma concat_append_last (batch_size : Z) (docs : list GcsDocument)
    (st : loop_state) :
  batching_invariant batch_size docs st →
  concat (map docs_of (append_last st)) = docs.
Proof.
  intros Hinv.
  destruct (append_last_shape _ _ _ Hinv)
    as [[-> ->]|(full & tail & -> & _ & _ & <- & _)]; [done|].
  rewrite map_app, concat_app. cbn. by rewrite app_nil_r.
Qed.

(** Descriptor [j] of full descriptors followed by a shorter last one is
    the [j]-th slice of their concatenation. *)
Lemma lookup_slices (n : nat) (full : list BatchDocumentsInputConfig)
    (tail : list GcsDocument) (j : nat) (cfg : BatchDocumentsInputConfig) :
  Forall (λ cfg, length (docs_of cfg) = n) full →
  (length tail ≤ n)%nat →
  (full ++ [{| gcs_documents := {| documents := tail |} |}]) !! j = Some cfg →
  docs_of cfg = take n (drop (j * n) (concat (map docs_of full) ++ tail)).
Proof.
  intros Hfull Htail. revert j cfg.
  induction Hfull as [|c full Hc _ IH]; intros j cfg Hj.
  - destruct j as [|j]; cbn in Hj; [|done].
    injection Hj as <-. cbn. by rewrite take_ge.
  - destruct j as [|j]; cbn in Hj.
    + injection Hj as <-. cbn. rewrite <- app_assoc, drop_0.
      by rewrite take_app_length'.
    + cbn. rewrite <- app_assoc, drop_app_add' by done. by apply IH.
Qed.

(** *** What [create_batches] returns *)

Lemma create_batches_outcome (storage : StorageClient)
    (bucket prefix : string) (batch_size : Z) :
  (batch_size ≤ BATCH_MAX_FILES)%Z →
  (create_batches storage bucket prefix batch_size).2
  = match failure (list_blobs storage bucket prefix) with
    | Some e => Raise e
    | None =>
        Return (append_last
                  (fold_left (push batch_size)
                     (map (document_for bucket)
                        (accepted (yielded (list_blobs storage bucket prefix))))
                     ([], [])))
    end.
Proof.
  intros Hmax. unfold create_batches.
  destruct (Z.gtb_spec batch_size BATCH_MAX_FILES); [lia|].
  cbn [snd]. rewrite for_blobs_outcome.
  by destruct (failure (list_blobs storage bucket prefix)).
Qed.

(** A listing that ends without failure gives a returned list, of the
    shape of [append_last_shape]. *)
Lemma create_batches_returns (storage : StorageClient)
    (bucket prefix : string) (batch_size : Z) :
  (batch_size ≤ BATCH_MAX_FILES)%Z →
  failure (list_blobs storage bucket prefix) = None →
  ∃ st,
    (create_batches storage bucket prefix batch_size).2
    = Return (append_last st)
    ∧ batching_invariant batch_size
        (map (document_for bucket)
           (accepted (yielded (list_blobs storage bucket prefix)))) st.
Proof.
  intros Hmax Hend. rewrite create_batches_outcome, Hend by done.
  eexists. split; [reflexivity|]. apply batching_invariant_fold.
Qed.

Lemma well_sized_append_last (batch_size : Z) (docs : list GcsDocument)
    (st : loop_state) :
  (1 ≤ batch_size)%Z →
  batching_invariant batch_size docs st →
  well_sized batch_size (append_last st).
Proof.
  intros Hpos Hinv. unfold well_sized.
  destruct (append_last_shape _ _ _ Hinv)
    as [[_ ->]|(full & tail & -> & Hne & Hfull & _ & Hbound)].
  { split_and!; [by intros [|?] ?|done|by intros ? ?%elem_of_nil]. }
  assert (1 ≤ Z.of_nat (length tail))%Z as Htail
    by (destruct tail; [done|cbn; lia]).
  split_and!.
  - intros i cfg Hi Hlt. rewrite length_app in Hlt. cbn in Hlt.
    rewrite lookup_app_l in Hi by lia.
    by apply (Forall_lookup_1 _ _ _ _ Hfull Hi).
  - intros cfg Hlast. rewrite last_snoc in Hlast. injection Hlast as <-.
    cbn. split; [done|by apply Hbound].
  - intros cfg [Hin| ->%list_elem_of_singleton]%elem_of_app.
    + destruct (proj1 (list_elem_of_lookup _ _) Hin) as [i Hi].
      pose proof (Forall_lookup_1 _ _ _ _ Hfull Hi) as Hlen. cbn in Hlen.
      intros Hnil. rewrite Hnil in Hlen. cbn in Hlen. lia.
    + done.
Qed.

Lemma batch_count_and_sizes_append_last (batch_size : Z)
    (docs : list GcsDocument) (st : loop_state) :
  (1 ≤ batch_size)%Z →
  batching_invariant batch_size docs st →
  batch_count_and_sizes batch_size (Z.of_nat (length docs)) (append_last st).
Proof.
  intros Hpos Hinv. unfold batch_count_and_sizes.
  destruct (well_sized_append_last _ _ _ Hpos Hinv) as (Hfirst & _ & _).
  split_and!; [| exact Hfirst | |].
  - destruct (append_last_shape _ _ _ Hinv)
      as [[-> ->]|(full & tail & -> & Hne & Hfull & <- & Hbound)].
    + cbn. unfold ceil_div. by rewrite Zmod_0_l, Zdiv_0_l.
    + rewrite !length_app, !Nat2Z.inj_add, (length_concat_full _ _ Hfull).
      cbn [length]. rewrite ceil_div_full_plus; [lia|].
      specialize (Hbound Hpos). destruct tail; [done|cbn in *; lia].
  - destruct (append_last_shape _ _ _ Hinv)
      as [[-> ->]|(full & tail & -> & Hne & Hfull & <- & Hbound)]; [done|].
    intros cfg Hlast. rewrite last_snoc in Hlast. injection Hlast as <-.
    rewrite length_app, Nat2Z.inj_add, (length_concat_full _ _ Hfull).
    cbn [docs_of gcs_documents documents]. rewrite mod_full_plus; [done|].
    specialize (Hbound Hpos). destruct tail; [done|cbn in *; lia].
  - destruct (append_last_shape _ _ _ Hinv)
      as [[-> ->]|(full & tail & -> & Hne & Hfull & <- & Hbound)]; [done|].
    rewrite length_app. destruct tail; [done|]. cbn. lia.
Qed.

Lemma split_every_append_last (batch_size : Z) (docs : list GcsDocument)
    (st : loop_state) :
  (1 ≤ batch_size)%Z →
  batching_invariant batch_size docs st →
  split_every batch_size docs (append_last st).
Proof.
  intros Hpos Hinv. unfold split_every.
  destruct (well_sized_append_last _ _ _ Hpos Hinv) as (_ & _ & Hnonempty).
  split_and!; [by eapply concat_append_last|exact Hnonempty|].
  destruct (append_last_shape _ _ _ Hinv)
    as [[-> ->]|(full & tail & -> & Hne & Hfull & <- & Hbound)];
    [by intros [|?] ?|].
  intros j cfg Hj. apply lookup_slices; [|lia|done].
  eapply Forall_impl; [exact Hfull|]. cbn. intros; lia.
Qed.

Lemma eligible_iff (blob : Blob.t) :
  eligible blob
  ↔ ¬ (∃ p, Blob.name blob = p +:+ "/")
    ∧ Blob.content_type blob ∈ VALID_MIME_TYPES
    ∧ (Blob.size blob ≤ BATCH_MAX_FILE_SIZE)%Z.
Proof.
  unfold eligible. rewrite <- endswith_spec.
  by destruct (endswith (Blob.name blob) "/"); intuition.
Qed.

(** *** The properties of [create_batches] *)

(** C1, for batch sizes from 1 up to the maximum: a listing that ends
    without failure and yields [N] eligible objects gives
    [ceil(N / batch_size)] descriptors, each of exactly [batch_size]
    documents except possibly the last, which holds [N mod batch_size]
    documents (or [batch_size] when that is zero); the list is empty when
    [N = 0]. *)
Theorem create_batches_count_and_sizes (storage : StorageClient)
    (bucket prefix : string) (batch_size : Z) :
  (1 ≤ batch_size)%Z →
  (batch_size ≤ BATCH_MAX_FILES)%Z →
  failure (list_blobs storage bucket prefix) = None →
  ∃ batches,
    (create_batches storage bucket prefix batch_size).2 = Return batches
    ∧ batch_count_and_sizes batch_size
        (Z.of_nat
           (length (accepted (yielded (list_blobs storage bucket prefix)))))
        batches.
Proof.
  intros Hpos Hmax Hend.
  destruct (create_batches_returns _ _ _ _ Hmax Hend) as (st & Hret & Hinv).
  exists (append_last st). split; [exact Hret|].
  rewrite <- (length_map (document_for bucket)).
  by apply batch_count_and_sizes_append_last.
Qed.

(** C2, for batch sizes from 1 up to the maximum: when the call returns,
    every descriptor but the last holds exactly [batch_size] documents,
    the last holds between 1 and [batch_size], and none is empty; the call
    returns whenever the listing does not fail, and otherwise raises what
    the listing raised. *)
Theorem create_batches_well_sized (storage : StorageClient)
    (bucket prefix : string) (batch_size : Z) :
  (1 ≤ batch_size)%Z →
  (batch_size ≤ BATCH_MAX_FILES)%Z →
  match (create_batches storage bucket prefix batch_size).2 with
  | Return batches =>
      failure (list_blobs storage bucket prefix) = None
      ∧ well_sized batch_size batches
  | Raise e => failure (list_blobs storage bucket prefix) = Some e
  end.
Proof.
  intros Hpos Hmax. rewrite create_batches_outcome by done.
  destruct (failure (list_blobs storage bucket prefix)) as [e|]; [done|].
  split; [done|].
  eapply well_sized_append_last; [done|apply batching_invariant_fold].
Qed.

(** C3: a batch size strictly above the maximum makes the call raise the
    [ValueError] at once: the trace is empty, so the storage client was not
    obtained, no listing call was issued and nothing was printed. *)
Theorem create_batches_rejects_oversized_batch (storage : StorageClient)
    (bucket prefix : string) (batch_size : Z) :
  (BATCH_MAX_FILES < batch_size)%Z →
  create_batches storage bucket prefix batch_size
  = ([], Raise (ValueError
                  ("Batch size must be less than " +:+ str_int BATCH_MAX_FILES
                   +:+ ". You provided " +:+ str_int batch_size +:+ "."))).
Proof.
  intros Hbig. unfold create_batches.
  destruct (Z.gtb_spec batch_size BATCH_MAX_FILES); [reflexivity|lia].
Qed.

(** C4: an object whose name ends in the path separator, whose content
    type is not a valid MIME type or whose size exceeds the limit
    contributes nothing, wherever it stands in the listing: the call
    returns what it returns for the listing without that object, and every
    document of every returned descriptor is the reference of another
    object of the listing, one that passes all three filters. *)
Theorem create_batches_excludes_ineligible (storage : StorageClient)
    (bucket prefix : string) (batch_size : Z)
    (before : list Blob.t) (blob : Blob.t) (after : list Blob.t)
    (rest : blob_iterator) :
  list_blobs storage bucket prefix = yield_all (before ++ blob :: after) rest →
  (∃ p, Blob.name blob = p +:+ "/")
  ∨ Blob.content_type blob ∉ VALID_MIME_TYPES
  ∨ (BATCH_MAX_FILE_SIZE < Blob.size blob)%Z →
  (∀ storage',
     list_blobs storage' bucket prefix = yield_all (before ++ after) rest →
     (create_batches storage' bucket prefix batch_size).2
     = (create_batches storage bucket prefix batch_size).2)
  ∧ (∀ batches cfg doc,
       (create_batches storage bucket prefix batch_size).2 = Return batches →
       cfg ∈ batches → doc ∈ docs_of cfg →
       ∃ blob',
         blob' ∈ before ++ after ++ yielded rest
         ∧ ¬ (∃ p, Blob.name blob' = p +:+ "/")
         ∧ Blob.content_type blob' ∈ VALID_MIME_TYPES
         ∧ (Blob.size blob' ≤ BATCH_MAX_FILE_SIZE)%Z
         ∧ doc = document_for bucket blob').
Proof.
  intros Hlisting Hbad.
  assert (¬ eligible blob) as Hno.
  { rewrite eligible_iff. intros (Hname & Hmime & Hsize).
    destruct Hbad as [?|[?|?]]; [done|done|lia]. }
  assert (accepted (yielded (list_blobs storage bucket prefix))
          = accepted (before ++ after ++ yielded rest)) as Haccepted.
  { rewrite Hlisting, yielded_yield_all. unfold accepted.
    rewrite <- !app_assoc, !filter_app. cbn [app].
    by rewrite filter_cons_False. }
  split.
  - intros storage' Hlisting'. unfold create_batches.
    destruct (Z.gtb_spec batch_size BATCH_MAX_FILES); [reflexivity|].
    cbn [snd]. rewrite !for_blobs_outcome, Haccepted.
    rewrite Hlisting, Hlisting', !failure_yield_all, yielded_yield_all.
    by rewrite <- app_assoc.
  - intros batches cfg doc Hret Hcfg Hdoc.
    destruct (Z.gtb_spec batch_size BATCH_MAX_FILES) as [Hbig|Hmax].
    { unfold create_batches in Hret.
      destruct (Z.gtb_spec batch_size BATCH_MAX_FILES); [done|lia]. }
    rewrite create_batches_outcome in Hret by done.
    destruct (failure (list_blobs storage bucket prefix)); [done|].
    injection Hret as <-.
    assert (doc ∈ map (document_for bucket)
                    (accepted (before ++ after ++ yielded rest))) as Hin.
    { rewrite <- Haccepted.
      rewrite <- (concat_append_last batch_size _ _
                    (batching_invariant_fold batch_size _)).
      apply list_elem_of_In, in_concat. exists (docs_of cfg).
      split; [apply in_map|]; by apply list_elem_of_In. }
    apply list_elem_of_In, in_map_iff in Hin as (blob' & <- & Hin).
    apply list_elem_of_In, list_elem_of_filter in Hin as [Hok Hin].
    apply eligible_iff in Hok as (Hname & Hmime & Hsize).
    by exists blob'.
Qed.

(** C5, the order for every batch size up to the maximum and the split
    points for batch sizes from 1: a listing that ends without failure
    gives descriptors whose documents, concatenated in order, are the
    references of the accepted objects in listing order; for
    [1 ≤ batch_size] descriptor [j] is exactly the slice
    [j * batch_size .. (j + 1) * batch_size] of that sequence, and none is
    empty. *)
Theorem create_batches_preserves_order (storage : StorageClient)
    (bucket prefix : string) (batch_size : Z) :
  (batch_size ≤ BATCH_MAX_FILES)%Z →
  failure (list_blobs storage bucket prefix) = None →
  ∃ batches,
    (create_batches storage bucket prefix batch_size).2 = Return batches
    ∧ concat (map docs_of batches)
      = map (document_for bucket)
          (accepted (yielded (list_blobs storage bucket prefix)))
    ∧ ((1 ≤ batch_size)%Z →
       split_every batch_size
         (map (document_for bucket)
            (accepted (yielded (list_blobs storage bucket prefix))))
         batches).
Proof.
  intros Hmax Hend.
  destruct (create_batches_returns _ _ _ _ Hmax Hend) as (st & Hret & Hinv).
  exists (append_last st). split_and!; [exact Hret| |].
  - by eapply concat_append_last.
  - intros Hpos. by apply split_every_append_last.
Qed.

(** C8: when the listing raises [e] while it is consumed, the call raises
    that same [e], and its trace holds exactly one listing call. *)
Theorem create_batches_propagates_listing_failure (storage : StorageClient)
    (bucket prefix : string) (batch_size : Z) (e : exception) :
  (batch_size ≤ BATCH_MAX_FILES)%Z →
  failure (list_blobs storage bucket prefix) = Some e →
  (create_batches storage bucket prefix batch_size).2 = Raise e
  ∧ listing_calls (create_batches storage bucket prefix batch_size).1 = 1.
Proof.
  intros Hmax Hfail. split.
  - by rewrite create_batches_outcome, Hfail.
  - unfold create_batches.
    destruct (Z.gtb_spec batch_size BATCH_MAX_FILES); [lia|].
    cbn [fst]. unfold listing_calls. rewrite List.filter_app, length_app.
    fold (listing_calls
            (for_blobs bucket batch_size (list_blobs storage bucket prefix)
               ([], [])).1).
    by rewrite for_blobs_no_listing.
Qed.

(** C9: the documents of the returned descriptors, taken in order, are one
    per accepted object, in listing order, each with [gcs_uri] equal to
    ["gs://"], the bucket name, ["/"] and the object's name, and
    [mime_type] equal to the object's content type. *)
Theorem create_batches_document_fields (storage : StorageClient)
    (bucket prefix : string) (batch_size : Z) :
  (batch_size ≤ BATCH_MAX_FILES)%Z →
  failure (list_blobs storage bucket prefix) = None →
  ∃ batches,
    (create_batches storage bucket prefix batch_size).2 = Return batches
    ∧ concat (map docs_of batches)
      = map (λ blob,
               {| gcs_uri := "gs://" +:+ bucket +:+ "/" +:+ Blob.name blob;
                  mime_type := Blob.content_type blob |})
          (accepted (yielded (list_blobs storage bucket prefix))).
Proof.
  intros Hmax Hend.
  destruct (create_batches_returns _ _ _ _ Hmax Hend) as (st & Hret & Hinv).
  exists (append_last st). split; [exact Hret|].
  by rewrite (concat_append_last _ _ _ Hinv).
Qed.

(** C10: a batch size equal to the maximum passes the size check: the call
    obtains the client and issues the listing call, returns when the
    listing does not fail, and raises only what the listing raised; the
    same holds for the default batch size, which is the maximum.  The
    message of the check nevertheless reads "must be less than" the
    maximum. *)
Theorem create_batches_accepts_maximum (storage : StorageClient)
    (bucket prefix : string) :
  (∃ trace,
     (create_batches storage bucket prefix BATCH_MAX_FILES).1
     = GetStorageClient :: ListBlobs bucket prefix :: trace)
  ∧ (create_batches storage bucket prefix BATCH_MAX_FILES).2
    = match failure (list_blobs storage bucket prefix) with
      | Some e => Raise e
      | None =>
          Return (append_last
                    (fold_left (push BATCH_MAX_FILES)
                       (map (document_for bucket)
                          (accepted
                             (yielded (list_blobs storage bucket prefix))))
                       ([], [])))
      end
  ∧ create_batches_default storage bucket prefix
    = create_batches storage bucket prefix BATCH_MAX_FILES
  ∧ ∀ batch_size,
      batch_size_error batch_size
      = ValueError ("Batch size must be less than "
                    +:+ (str_int BATCH_MAX_FILES +:+ ". You provided "
                         +:+ str_int batch_size +:+ ".")).
Proof.
  split_and!.
  - unfold create_batches.
    destruct (Z.gtb_spec BATCH_MAX_FILES BATCH_MAX_FILES); [lia|].
    by eexists.
  - by apply create_batches_outcome.
  - reflexivity.
  - reflexivity.
Qed.

(** *** Further properties of [create_batches] *)

(** What the loop prints for one object: nothing for a directory
    placeholder or an accepted object, the MIME line for an invalid content
    type, and otherwise the size line for an oversized object. *)
Definition diagnostics (blob : Blob.t) : list event :=
  if endswith (Blob.name blob) "/" then []
  else if decide (Blob.content_type blob ∈ VALID_MIME_TYPES) then
    if decide (Blob.size blob ≤ BATCH_MAX_FILE_SIZE)%Z then []
    else [Print ("Skipping file " +:+ Blob.name blob
                 +:+ ". File size must be less than "
                 +:+ str_int BATCH_MAX_FILE_SIZE +:+ " bytes. File size is "
                 +:+ str_int (Blob.size blob) +:+ " bytes.")]
  else [Print ("Skipping file " +:+ Blob.name blob +:+ ". Invalid Mime Type "
               +:+ Blob.content_type blob +:+ ".")].

(** A descriptor holding [docs]. *)
Definition descriptor (docs : list GcsDocument) : BatchDocumentsInputConfig :=
  {| gcs_documents := {| documents := docs |} |}.

Lemma loop_body_trace (bucket : string) (batch_size : Z) (blob : Blob.t)
    (st : loop_state) :
  (loop_body bucket batch_size blob st).1 = diagnostics blob.
Proof.
  unfold loop_body, diagnostics, invalid_mime_message, oversized_message.
  destruct (endswith (Blob.name blob) "/"); [reflexivity|].
  destruct (decide (Blob.content_type blob ∈ VALID_MIME_TYPES)) as [Hin|Hout].
  - rewrite (bool_decide_eq_true_2 _ Hin). cbn [negb].
    destruct (Z.gtb_spec (Blob.size blob) BATCH_MAX_FILE_SIZE);
      destruct (decide (Blob.size blob ≤ BATCH_MAX_FILE_SIZE)%Z);
      try lia; reflexivity.
  - rewrite (bool_decide_eq_false_2 _ Hout). reflexivity.
Qed.

Lemma for_blobs_trace (bucket : string) (batch_size : Z)
    (it : blob_iterator) (st : loop_state) :
  (for_blobs bucket batch_size it st).1 = flat_map diagnostics (yielded it).
Proof.
  revert st. induction it as [|blob rest IH|e]; intros st;
    cbn [for_blobs yielded flat_map fst]; try reflexivity.
  by rewrite IH, loop_body_trace.
Qed.

(** While no prefix of the remaining documents brings the in-progress
    batch to [batch_size], the loop only appends. *)
Lemma fold_push_no_seal (batch_size : Z) (docs : list GcsDocument)
    (batches : list BatchDocumentsInputConfig) (batch : list GcsDocument) :
  (∀ k : nat, (length batch ≤ k < length batch + length docs)%nat →
              Z.of_nat k ≠ batch_size) →
  fold_left (push batch_size) docs (batches, batch) = (batches, batch ++ docs).
Proof.
  revert batch. induction docs as [|doc docs IH]; intros batch Hnever.
  - cbn. by rewrite app_nil_r.
  - cbn [fold_left]. unfold push at 2. cbn [fst snd].
    destruct (Z.eqb_spec (Z.of_nat (length batch)) batch_size) as [Heq|_].
    { exfalso. apply (Hnever (length batch)); [cbn; lia|done]. }
    rewrite IH.
    + by rewrite <- app_assoc.
    + intros k Hk. rewrite length_app in Hk. cbn in Hk.
      apply Hnever. cbn. lia.
Qed.

(** Sealed descriptors stay where they are as the loop goes on. *)
Lemma fold_push_prefix (batch_size : Z) (docs : list GcsDocument)
    (st : loop_state) :
  st.1 `prefix_of` (fold_left (push batch_size) docs st).1.
Proof.
  revert st. induction docs as [|doc docs IH]; intros st; [done|].
  cbn [fold_left]. etrans; [|apply IH].
  unfold push. destruct (Z.of_nat (length st.2) =? batch_size)%Z; cbn.
  - by apply prefix_app_r.
  - done.
Qed.

Lemma string_app_inj (p s1 s2 : string) : p +:+ s1 = p +:+ s2 → s1 = s2.
Proof.
  induction p as [|a p IH]; cbn; [done|]. intros [= Heq]. by apply IH.
Qed.

Lemma NoDup_map_by {A B C : Type} (f : A → B) (g : A → C) (l : list A) :
  (∀ x y, f x = f y → g x = g y) → NoDup (map g l) → NoDup (map f l).
Proof.
  intros Hfg. induction l as [|x l IH]; cbn; [constructor|].
  intros [Hfresh Hnodup]%NoDup_cons. apply NoDup_cons. split; [|by apply IH].
  intros Hin. apply Hfresh.
  apply list_elem_of_In, in_map_iff in Hin as (y & Heq & Hy).
  apply list_elem_of_In, in_map_iff. exists y. split; [|done].
  by apply Hfg.
Qed.

(** X1: for a batch size that passes the check, the call obtains the
    client, issues one listing call with the bucket and prefix it was
    given, and then prints, in listing order, one line for each object that
    is skipped for its content type or, the content type being valid, for
    its size; directory placeholders and accepted objects print nothing.
    The trace does not depend on the batch size, and it is the same whether
    the listing then ends or fails. *)
Theorem create_batches_trace (storage : StorageClient)
    (bucket prefix : string) (batch_size : Z) :
  (batch_size ≤ BATCH_MAX_FILES)%Z →
  (create_batches storage bucket prefix batch_size).1
  = GetStorageClient :: ListBlobs bucket prefix
    :: flat_map diagnostics (yielded (list_blobs storage bucket prefix)).
Proof.
  intros Hmax. unfold create_batches.
  destruct (Z.gtb_spec batch_size BATCH_MAX_FILES); [lia|].
  cbn [fst app]. by rewrite for_blobs_trace.
Qed.

(** X2: for every batch size that passes the check, zero and negative
    ones included, a listing that ends without failure gives the empty
    list exactly when no object is accepted. *)
Theorem create_batches_empty_iff (storage : StorageClient)
    (bucket prefix : string) (batch_size : Z) :
  (batch_size ≤ BATCH_MAX_FILES)%Z →
  failure (list_blobs storage bucket prefix) = None →
  (create_batches storage bucket prefix batch_size).2 = Return []
  ↔ accepted (yielded (list_blobs storage bucket prefix)) = [].
Proof.
  intros Hmax Hend.
  destruct (create_batches_returns _ _ _ _ Hmax Hend) as (st & -> & Hinv).
  destruct (append_last_shape _ _ _ Hinv)
    as [[Hnil ->]|(full & tail & -> & Hne & _ & Hcat & _)].
  - apply map_eq_nil in Hnil. by split.
  - split.
    + intros [= Habs]. by destruct full.
    + intros Hnone. rewrite Hnone in Hcat. cbn in Hcat.
      by apply app_eq_nil in Hcat as [_ ?].
Qed.

(** X3: a negative batch size passes the check when it does not exceed
    the maximum, and the loop then never seals a batch: all accepted
    documents come back in one descriptor, however many they are (none
    gives the empty list). *)
Theorem create_batches_negative_batch_size (storage : StorageClient)
    (bucket prefix : string) (batch_size : Z) :
  (batch_size < 0)%Z →
  (batch_size ≤ BATCH_MAX_FILES)%Z →
  failure (list_blobs storage bucket prefix) = None →
  (create_batches storage bucket prefix batch_size).2
  = Return
      match map (document_for bucket)
              (accepted (yielded (list_blobs storage bucket prefix))) with
      | [] => []
      | doc :: docs => [descriptor (doc :: docs)]
      end.
Proof.
  intros Hneg Hmax Hend. rewrite create_batches_outcome, Hend by done.
  rewrite fold_push_no_seal by (intros; lia).
  by destruct (map _ _).
Qed.

(** X4: a batch size of 0 passes the check when the maximum is not
    negative; the first accepted object then seals the empty in-progress
    batch and nothing is sealed afterwards, so the call returns an empty
    descriptor followed by one descriptor with all accepted documents. *)
Theorem create_batches_zero_batch_size (storage : StorageClient)
    (bucket prefix : string) :
  (0 ≤ BATCH_MAX_FILES)%Z →
  failure (list_blobs storage bucket prefix) = None →
  (create_batches storage bucket prefix 0).2
  = Return
      match map (document_for bucket)
              (accepted (yielded (list_blobs storage bucket prefix))) with
      | [] => []
      | doc :: docs => [descriptor []; descriptor (doc :: docs)]
      end.
Proof.
  intros Hmax Hend. rewrite create_batches_outcome, Hend by done.
  destruct (map _ _) as [|doc docs]; [reflexivity|].
  change (fold_left (push 0) (doc :: docs) ([], []))
    with (fold_left (push 0) docs ([descriptor []], [doc])).
  rewrite fold_push_no_seal by (cbn; intros; lia).
  reflexivity.
Qed.

(** X5: when the batch size is at least the number of accepted objects,
    the loop never seals a batch and all accepted documents come back in
    one descriptor, in listing order. *)
Theorem create_batches_single_batch (storage : StorageClient)
    (bucket prefix : string) (batch_size : Z) :
  (Z.of_nat (length (accepted (yielded (list_blobs storage bucket prefix))))
   ≤ batch_size)%Z →
  (batch_size ≤ BATCH_MAX_FILES)%Z →
  failure (list_blobs storage bucket prefix) = None →
  (create_batches storage bucket prefix batch_size).2
  = Return
      match map (document_for bucket)
              (accepted (yielded (list_blobs storage bucket prefix))) with
      | [] => []
      | doc :: docs => [descriptor (doc :: docs)]
      end.
Proof.
  intros Hfits Hmax Hend. rewrite create_batches_outcome, Hend by done.
  rewrite fold_push_no_seal.
  - by destruct (map _ _).
  - rewrite length_map. cbn. intros; lia.
Qed.

(** X6: objects added at the end of a listing leave the earlier batches
    alone: every descriptor but the last of the result for a listing is
    found, at the same position, in the result for the listing extended by
    further objects. *)
Theorem create_batches_extension (storage storage' : StorageClient)
    (bucket prefix : string) (batch_size : Z) (blobs more : list Blob.t) :
  (batch_size ≤ BATCH_MAX_FILES)%Z →
  list_blobs storage bucket prefix = yield_all blobs StopIteration →
  list_blobs storage' bucket prefix
  = yield_all (blobs ++ more) StopIteration →
  ∃ batches batches',
    (create_batches storage bucket prefix batch_size).2 = Return batches
    ∧ (create_batches storage' bucket prefix batch_size).2 = Return batches'
    ∧ removelast batches `prefix_of` batches'.
Proof.
  intros Hmax Hl Hl'. rewrite !create_batches_outcome by done.
  rewrite Hl, Hl', !failure_yield_all, !yielded_yield_all. cbn [failure yielded].
  rewrite !app_nil_r. unfold accepted. rewrite filter_app, map_app, fold_left_app.
  eexists _, _. split_and!; [reflexivity..|].
  pose proof (batching_invariant_fold batch_size
                (map (document_for bucket) (filter eligible blobs)))
    as (_ & _ & Hstart & _).
  set (st := fold_left (push batch_size)
               (map (document_for bucket) (filter eligible blobs)) ([], []))
    in *.
  set (st' := fold_left (push batch_size)
                (map (document_for bucket) (filter eligible more)) st).
  assert (removelast (append_last st) = st.1) as ->.
  { unfold append_last. destruct st.2 as [|d batch] eqn:Hbatch.
    - by rewrite (Hstart eq_refl).
    - by rewrite removelast_last. }
  etrans; [apply (fold_push_prefix batch_size
                    (map (document_for bucket) (filter eligible more)) st)|].
  fold st'. unfold append_last. destruct st'.2; [done|by apply prefix_app_r].
Qed.

(** X7: for a batch size from 1 up to the maximum, every returned
    descriptor holds at least one and at most [BATCH_MAX_FILES]
    documents. *)
Theorem create_batches_within_maximum (storage : StorageClient)
    (bucket prefix : string) (batch_size : Z)
    (batches : list BatchDocumentsInputConfig)
    (cfg : BatchDocumentsInputConfig) :
  (1 ≤ batch_size)%Z →
  (batch_size ≤ BATCH_MAX_FILES)%Z →
  (create_batches storage bucket prefix batch_size).2 = Return batches →
  cfg ∈ batches →
  (1 ≤ Z.of_nat (length (docs_of cfg)) ≤ BATCH_MAX_FILES)%Z.
Proof.
  intros Hpos Hmax Hret Hcfg. rewrite create_batches_outcome in Hret by done.
  destruct (failure (list_blobs storage bucket prefix)); [done|].
  injection Hret as <-.
  pose proof (batching_invariant_fold batch_size
                (map (document_for bucket)
                   (accepted (yielded (list_blobs storage bucket prefix)))))
    as Hinv.
  destruct (append_last_shape _ _ _ Hinv)
    as [[_ Hnil]|(full & tail & Heq & Hne & Hfull & _ & Hbound)];
    rewrite ?Hnil, ?Heq in Hcfg; [by apply elem_of_nil in Hcfg|].
  apply elem_of_app in Hcfg as [Hin| ->%list_elem_of_singleton].
  - destruct (proj1 (list_elem_of_lookup _ _) Hin) as [i Hi].
    pose proof (Forall_lookup_1 _ _ _ _ Hfull Hi) as Hlen. cbn in Hlen. lia.
  - specialize (Hbound Hpos). cbn. destruct tail; [done|cbn in *; lia].
Qed.

(** X8: when the accepted objects have pairwise distinct names, no
    document reference occurs twice across the returned descriptors. *)
Theorem create_batches_no_duplicates (storage : StorageClient)
    (bucket prefix : string) (batch_size : Z) :
  (batch_size ≤ BATCH_MAX_FILES)%Z →
  failure (list_blobs storage bucket prefix) = None →
  NoDup (map Blob.name
           (accepted (yielded (list_blobs storage bucket prefix)))) →
  ∃ batches,
    (create_batches storage bucket prefix batch_size).2 = Return batches
    ∧ NoDup (concat (map docs_of batches)).
Proof.
  intros Hmax Hend Hnames.
  destruct (create_batches_returns _ _ _ _ Hmax Hend) as (st & Hret & Hinv).
  exists (append_last st). split; [exact Hret|].
  rewrite (concat_append_last _ _ _ Hinv).
  apply (NoDup_map_by _ Blob.name); [|done].
  intros b1 b2 Huri. apply (f_equal gcs_uri) in Huri.
  unfold document_for in Huri. cbn [gcs_uri] in Huri.
  apply (string_app_inj "gs://"), (string_app_inj bucket) in Huri.
  by apply (string_app_inj "/") in Huri.
Qed.

(** The descriptors sealed so far play no part in what the loop does
    next. *)
Lemma fold_push_shift (batch_size : Z) (docs : list GcsDocument)
    (sealed batches : list BatchDocumentsInputConfig)
    (batch : list GcsDocument) :
  fold_left (push batch_size) docs (sealed ++ batches, batch)
  = (sealed ++ (fold_left (push batch_size) docs (batches, batch)).1,
     (fold_left (push batch_size) docs (batches, batch)).2).
Proof.
  revert batches batch. induction docs as [|doc docs IH]; intros batches batch;
    [reflexivity|].
  cbn [fold_left]. unfold push at 2 4 6. cbn [fst snd].
  destruct (Z.of_nat (length batch) =? batch_size)%Z.
  - by rewrite <- app_assoc, IH.
  - by rewrite IH.
Qed.

Lemma append_last_shift (sealed : list BatchDocumentsInputConfig)
    (st : loop_state) :
  append_last (sealed ++ st.1, st.2) = sealed ++ append_last st.
Proof.
  unfold append_last. cbn [fst snd].
  destruct st.2; [reflexivity|by rewrite app_assoc].
Qed.

Lemma append_last_fold_app (batch_size : Z) (docs1 docs2 : list GcsDocument) :
  (1 ≤ batch_size)%Z →
  (Z.of_nat (length docs1) mod batch_size = 0)%Z →
  append_last (fold_left (push batch_size) (docs1 ++ docs2) ([], []))
  = append_last (fold_left (push batch_size) docs1 ([], []))
    ++ append_last (fold_left (push batch_size) docs2 ([], [])).
Proof.
  intros Hpos Hmod. rewrite fold_left_app.
  pose proof (batching_invariant_fold batch_size docs1)
    as (Hcat & Hfull & Hstart & Hbound).
  destruct (fold_left (push batch_size) docs1 ([], [])) as [batches batch].
  cbn [fst snd] in *. destruct batch as [|d batch].
  { by rewrite (Hstart eq_refl). }
  assert (Z.of_nat (length (d :: batch)) = batch_size) as Hlen.
  { specialize (Hbound Hpos). rewrite <- Hcat, length_app, Nat2Z.inj_add in Hmod.
    rewrite (length_concat_full _ _ Hfull), Z.add_comm, Z.mul_comm in Hmod.
    rewrite Z.mod_add in Hmod by lia.
    destruct (Z.eq_dec (Z.of_nat (length (d :: batch))) batch_size);
      [done|].
    rewrite Z.mod_small in Hmod by (cbn in *; lia). cbn in Hmod. lia. }
  destruct docs2 as [|doc docs2].
  { cbn. by rewrite app_nil_r. }
  cbn [fold_left]. unfold push at 2 4. cbn [fst snd].
  rewrite Hlen, Z.eqb_refl.
  destruct (Z.eqb_spec (Z.of_nat (@length GcsDocument [])) batch_size)
    as [Habs|_]; [cbn in Habs; lia|].
  rewrite <- (app_nil_r (batches ++ _)), fold_push_shift.
  cbn [app]. apply (append_last_shift _ (fold_left _ _ _)).
Qed.

(** X11: for a batch size from 1 up to the maximum, joining two listings
    of which the first has a multiple of [batch_size] accepted objects
    joins the results: the descriptors for the first listing followed by
    the descriptors for the second. *)
Theorem create_batches_app (storage1 storage2 storage : StorageClient)
    (bucket prefix : string) (batch_size : Z) (blobs1 blobs2 : list Blob.t) :
  (1 ≤ batch_size)%Z →
  (batch_size ≤ BATCH_MAX_FILES)%Z →
  list_blobs storage1 bucket prefix = yield_all blobs1 StopIteration →
  list_blobs storage2 bucket prefix = yield_all blobs2 StopIteration →
  list_blobs storage bucket prefix
  = yield_all (blobs1 ++ blobs2) StopIteration →
  (Z.of_nat (length (accepted blobs1)) mod batch_size = 0)%Z →
  ∃ batches1 batches2,
    (create_batches storage1 bucket prefix batch_size).2 = Return batches1
    ∧ (create_batches storage2 bucket prefix batch_size).2 = Return batches2
    ∧ (create_batches storage bucket prefix batch_size).2
      = Return (batches1 ++ batches2).
Proof.
  intros Hpos Hmax Hl1 Hl2 Hl Hmod. rewrite !create_batches_outcome by done.
  rewrite Hl1, Hl2, Hl, !failure_yield_all, !yielded_yield_all.
  cbn [failure yielded]. rewrite !app_nil_r.
  eexists _, _. split_and!; [reflexivity..|]. f_equal.
  unfold accepted. rewrite filter_app, map_app.
  apply append_last_fold_app; [done|]. by rewrite length_map.
Qed.

End CreateBatches.

(** ** [create_batches] at the sample configuration *)

(** The spec's filtering scenario: of [a.pdf], the placeholder [dir/], the
    text file [b.txt], the oversized [c.pdf] and [d.pdf], a batch size of 2
    gives the single descriptor [[a.pdf, d.pdf]]; the two skipped files
    are reported, the placeholder is not. *)
Example scenario_filtering :
  create_batches constants.BATCH_MAX_FILES constants.BATCH_MAX_FILE_SIZE
       constants.VALID_MIME_TYPES scenario_client "my-bucket" "docs/" 2
  = ([GetStorageClient; ListBlobs "my-bucket" "docs/";
      Print "Skipping file b.txt. Invalid Mime Type text/plain.";
      Print "Skipping file c.pdf. File size must be less than 1073741824 bytes. File size is 1073741825 bytes."],
     Return
       [{| gcs_documents :=
             {| documents :=
                  [{| gcs_uri := "gs://my-bucket/a.pdf";
                      mime_type := "application/pdf" |};
                   {| gcs_uri := "gs://my-bucket/d.pdf";
                      mime_type := "application/pdf" |}] |} |}]).
Proof. vm_compute. reflexivity. Qed.

(** The spec's size scenario: 101 eligible objects and a batch size of 50
    give three descriptors, of 50, 50 and 1 documents. *)
Example scenario_101_objects :
  ∃ batches,
    (create_batches constants.BATCH_MAX_FILES constants.BATCH_MAX_FILE_SIZE
       constants.VALID_MIME_TYPES (eligible_client 101) "my-bucket" "docs/" 50).2 = Return batches
    ∧ map (λ cfg, length (docs_of cfg)) batches = [50; 50; 1].
Proof. eexists. split; vm_compute; reflexivity. Qed.

Lemma create_batches_count_and_sizes_witness :
  ∃ batches,
    (create_batches constants.BATCH_MAX_FILES constants.BATCH_MAX_FILE_SIZE
       constants.VALID_MIME_TYPES (eligible_client 101) "my-bucket" "docs/" 50).2 = Return batches
    ∧ batch_count_and_sizes 50
        (Z.of_nat
           (length
              (accepted constants.BATCH_MAX_FILE_SIZE constants.VALID_MIME_TYPES
                 (yielded (list_blobs (eligible_client 101)
                             "my-bucket" "docs/")))))
        batches.
Proof.
  apply create_batches_count_and_sizes;
    [lia | unfold constants.BATCH_MAX_FILES; lia | reflexivity].
Defined.

(** C1 as stated, for every batch size up to the maximum, fails below 1.
    With one eligible object, a batch size of -1 gives one descriptor
    while [ceil(1 / -1)] is -1; a batch size of 0 gives two descriptors,
    the first of them empty. *)
Lemma create_batches_count_and_sizes_fails_below_one :
  ((-1 ≤ constants.BATCH_MAX_FILES)%Z
   ∧ (create_batches constants.BATCH_MAX_FILES constants.BATCH_MAX_FILE_SIZE
       constants.VALID_MIME_TYPES (eligible_client 1) "my-bucket" "docs/" (-1)).2
     = Return
         [{| gcs_documents :=
               {| documents :=
                    [{| gcs_uri := "gs://my-bucket/doc0.pdf";
                        mime_type := "application/pdf" |}] |} |}]
   ∧ Z.of_nat (length (accepted constants.BATCH_MAX_FILE_SIZE constants.VALID_MIME_TYPES (eligible_blobs 1))) = 1%Z
   ∧ ceil_div 1 (-1) = (-1)%Z
   ∧ ¬ batch_count_and_sizes (-1) 1
         [{| gcs_documents :=
               {| documents :=
                    [{| gcs_uri := "gs://my-bucket/doc0.pdf";
                        mime_type := "application/pdf" |}] |} |}])
  ∧ ((0 ≤ constants.BATCH_MAX_FILES)%Z
     ∧ (create_batches constants.BATCH_MAX_FILES constants.BATCH_MAX_FILE_SIZE
       constants.VALID_MIME_TYPES (eligible_client 1) "my-bucket" "docs/" 0).2
       = Return
           [{| gcs_documents := {| documents := [] |} |};
            {| gcs_documents :=
                 {| documents :=
                      [{| gcs_uri := "gs://my-bucket/doc0.pdf";
                          mime_type := "application/pdf" |}] |} |}]
     ∧ ¬ batch_count_and_sizes 0 1
           [{| gcs_documents := {| documents := [] |} |};
            {| gcs_documents :=
                 {| documents :=
                      [{| gcs_uri := "gs://my-bucket/doc0.pdf";
                          mime_type := "application/pdf" |}] |} |}]).
Proof.
  split; split_and!; try (vm_compute; reflexivity);
    try (unfold constants.BATCH_MAX_FILES; lia).
  - intros (Hcount & _). vm_compute in Hcount. discriminate Hcount.
  - intros (Hcount & _). vm_compute in Hcount. discriminate Hcount.
Qed.

Lemma create_batches_well_sized_witness :
  match
    (create_batches constants.BATCH_MAX_FILES constants.BATCH_MAX_FILE_SIZE
       constants.VALID_MIME_TYPES (eligible_client 101) "my-bucket" "docs/" 50).2
  with
  | Return batches =>
      failure (list_blobs (eligible_client 101) "my-bucket" "docs/") = None
      ∧ well_sized 50 batches
  | Raise e =>
      failure (list_blobs (eligible_client 101) "my-bucket" "docs/") = Some e
  end.
Proof.
  apply create_batches_well_sized;
    [lia | unfold constants.BATCH_MAX_FILES; lia].
Defined.

(** C2 as stated, for every batch size up to the maximum, fails at 0: with
    one eligible object the call returns an empty descriptor followed by
    one of one document. *)
Lemma create_batches_well_sized_fails_at_zero :
  (0 ≤ constants.BATCH_MAX_FILES)%Z
  ∧ (create_batches constants.BATCH_MAX_FILES constants.BATCH_MAX_FILE_SIZE
       constants.VALID_MIME_TYPES (eligible_client 1) "my-bucket" "docs/" 0).2
    = Return
        [{| gcs_documents := {| documents := [] |} |};
         {| gcs_documents :=
              {| documents :=
                   [{| gcs_uri := "gs://my-bucket/doc0.pdf";
                       mime_type := "application/pdf" |}] |} |}]
  ∧ ¬ well_sized 0
        [{| gcs_documents := {| documents := [] |} |};
         {| gcs_documents :=
              {| documents :=
                   [{| gcs_uri := "gs://my-bucket/doc0.pdf";
                       mime_type := "application/pdf" |}] |} |}].
Proof.
  split_and!; [unfold constants.BATCH_MAX_FILES; lia|vm_compute; reflexivity|].
  intros (_ & _ & Hnonempty).
  apply (Hnonempty {| gcs_documents := {| documents := [] |} |});
    [apply list_elem_of_here|reflexivity].
Qed.

Lemma create_batches_rejects_oversized_batch_witness :
  create_batches constants.BATCH_MAX_FILES constants.BATCH_MAX_FILE_SIZE
       constants.VALID_MIME_TYPES scenario_client "my-bucket" "docs/" 51
  = ([], Raise (ValueError
                  "Batch size must be less than 50. You provided 51.")).
Proof.
  apply (create_batches_rejects_oversized_batch constants.BATCH_MAX_FILES
           constants.BATCH_MAX_FILE_SIZE constants.VALID_MIME_TYPES
           scenario_client "my-bucket" "docs/" 51).
  unfold constants.BATCH_MAX_FILES. lia.
Defined.

Lemma create_batches_excludes_ineligible_witness :
  (∀ storage',
     list_blobs storage' "my-bucket" "docs/"
     = yield_all
         ([Blob.make "a.pdf" "application/pdf" 100]
          ++ [Blob.make "b.txt" "text/plain" 100;
              Blob.make "c.pdf" "application/pdf" 1073741825;
              Blob.make "d.pdf" "application/pdf" 100])
         StopIteration →
     (create_batches constants.BATCH_MAX_FILES constants.BATCH_MAX_FILE_SIZE
       constants.VALID_MIME_TYPES storage' "my-bucket" "docs/" 2).2
     = (create_batches constants.BATCH_MAX_FILES constants.BATCH_MAX_FILE_SIZE
       constants.VALID_MIME_TYPES scenario_client "my-bucket" "docs/" 2).2)
  ∧ (∀ batches cfg doc,
       (create_batches constants.BATCH_MAX_FILES constants.BATCH_MAX_FILE_SIZE
       constants.VALID_MIME_TYPES scenario_client "my-bucket" "docs/" 2).2 = Return batches →
       cfg ∈ batches → doc ∈ docs_of cfg →
       ∃ blob',
         blob' ∈ [Blob.make "a.pdf" "application/pdf" 100]
                 ++ [Blob.make "b.txt" "text/plain" 100;
                     Blob.make "c.pdf" "application/pdf" 1073741825;
                     Blob.make "d.pdf" "application/pdf" 100]
                 ++ yielded StopIteration
         ∧ ¬ (∃ p, Blob.name blob' = p +:+ "/")
         ∧ Blob.content_type blob' ∈ constants.VALID_MIME_TYPES
         ∧ (Blob.size blob' ≤ constants.BATCH_MAX_FILE_SIZE)%Z
         ∧ doc = document_for "my-bucket" blob').
Proof.
  apply (create_batches_excludes_ineligible constants.BATCH_MAX_FILES
           constants.BATCH_MAX_FILE_SIZE constants.VALID_MIME_TYPES
           scenario_client "my-bucket" "docs/" 2
           [Blob.make "a.pdf" "application/pdf" 100]
           (Blob.make "dir/" "application/x-directory" 0)).
  - reflexivity.
  - left. exists "dir". reflexivity.
Defined.

Lemma create_batches_preserves_order_witness :
  ∃ batches,
    (create_batches constants.BATCH_MAX_FILES constants.BATCH_MAX_FILE_SIZE
       constants.VALID_MIME_TYPES scenario_client "my-bucket" "docs/" 1).2 = Return batches
    ∧ concat (map docs_of batches)
      = map (document_for "my-bucket")
          (accepted constants.BATCH_MAX_FILE_SIZE constants.VALID_MIME_TYPES
             (yielded (list_blobs scenario_client "my-bucket" "docs/")))
    ∧ ((1 ≤ 1)%Z →
       split_every 1
         (map (document_for "my-bucket")
            (accepted constants.BATCH_MAX_FILE_SIZE constants.VALID_MIME_TYPES
               (yielded (list_blobs scenario_client "my-bucket" "docs/"))))
         batches).
Proof.
  apply create_batches_preserves_order;
    [unfold constants.BATCH_MAX_FILES; lia | reflexivity].
Defined.

(** C5 as stated, for every batch size up to the maximum, fails at 0: with
    two eligible objects the call splits before the first one and nowhere
    else, so the second descriptor is not the empty slice that a split
    after every 0-th object asks for. *)
Lemma create_batches_preserves_order_fails_at_zero :
  (0 ≤ constants.BATCH_MAX_FILES)%Z
  ∧ (create_batches constants.BATCH_MAX_FILES constants.BATCH_MAX_FILE_SIZE
       constants.VALID_MIME_TYPES (eligible_client 2) "my-bucket" "docs/" 0).2
    = Return
        [{| gcs_documents := {| documents := [] |} |};
         {| gcs_documents :=
              {| documents :=
                   [{| gcs_uri := "gs://my-bucket/doc0.pdf";
                       mime_type := "application/pdf" |};
                    {| gcs_uri := "gs://my-bucket/doc1.pdf";
                       mime_type := "application/pdf" |}] |} |}]
  ∧ ¬ split_every 0
        (map (document_for "my-bucket")
           (accepted constants.BATCH_MAX_FILE_SIZE constants.VALID_MIME_TYPES (eligible_blobs 2)))
        [{| gcs_documents := {| documents := [] |} |};
         {| gcs_documents :=
              {| documents :=
                   [{| gcs_uri := "gs://my-bucket/doc0.pdf";
                       mime_type := "application/pdf" |};
                    {| gcs_uri := "gs://my-bucket/doc1.pdf";
                       mime_type := "application/pdf" |}] |} |}].
Proof.
  split_and!; [unfold constants.BATCH_MAX_FILES; lia|vm_compute; reflexivity|].
  intros (_ & _ & Hslices).
  specialize (Hslices 1%nat _ eq_refl). vm_compute in Hslices.
  discriminate Hslices.
Qed.

Lemma create_batches_propagates_listing_failure_witness :
  (create_batches constants.BATCH_MAX_FILES constants.BATCH_MAX_FILE_SIZE
       constants.VALID_MIME_TYPES failing_client "my-bucket" "docs/" 50).2
  = Raise (CollaboratorError "ServiceUnavailable" "503")
  ∧ listing_calls
      (create_batches constants.BATCH_MAX_FILES constants.BATCH_MAX_FILE_SIZE
       constants.VALID_MIME_TYPES failing_client "my-bucket" "docs/" 50).1 = 1.
Proof.
  apply create_batches_propagates_listing_failure;
    [unfold constants.BATCH_MAX_FILES; lia | reflexivity].
Defined.

Lemma create_batches_document_fields_witness :
  ∃ batches,
    (create_batches constants.BATCH_MAX_FILES constants.BATCH_MAX_FILE_SIZE
       constants.VALID_MIME_TYPES scenario_client "my-bucket" "docs/" 2).2 = Return batches
    ∧ concat (map docs_of batches)
      = map (λ blob,
               {| gcs_uri := "gs://" +:+ "my-bucket" +:+ "/"
                             +:+ Blob.name blob;
                  mime_type := Blob.content_type blob |})
          (accepted constants.BATCH_MAX_FILE_SIZE constants.VALID_MIME_TYPES
             (yielded (list_blobs scenario_client "my-bucket" "docs/"))).
Proof.
  apply create_batches_document_fields;
    [unfold constants.BATCH_MAX_FILES; lia | reflexivity].
Defined.

(** ** The properties of [document_type_to_processor_type] *)

(** A lookup in a dictionary literal without repeated keys succeeds exactly
    on the literal's entries. *)
Lemma fold_insert_lookup (items : list (string * string))
    (d : gmap string string) (k v : string) :
  NoDup items.*1 →
  (fold_left (fun d kv => <[kv.1 := kv.2]> d) items d) !! k = Some v
  ↔ (k, v) ∈ items ∨ ((k ∉ items.*1) ∧ d !! k = Some v).
Proof.
  revert d. induction items as [|[k0 v0] items IH]; intros d Hnodup.
  - cbn. split; [intros ?; right; split; [apply not_elem_of_nil|done]|].
    intros [Hin%elem_of_nil|[_ ?]]; done.
  - cbn in Hnodup. apply NoDup_cons in Hnodup as [Hfresh Hnodup].
    cbn [fold_left]. rewrite IH by done. cbn [fst snd].
    rewrite elem_of_cons, fmap_cons, not_elem_of_cons. cbn [fst].
    destruct (decide (k = k0)) as [->|Hne].
    + rewrite lookup_insert_eq. split.
      * intros [Hin|[_ [= ->]]]; [|by left; left].
        exfalso. apply Hfresh. apply list_elem_of_fmap. by exists (k0, v).
      * intros [[[= ->]|Hin]|[[? _] _]]; [by right| |done].
        exfalso. apply Hfresh. apply list_elem_of_fmap. by exists (k0, v).
    + rewrite lookup_insert_ne by done. split.
      * intros [Hin|[? ?]]; [by left; right|by right].
      * intros [[[= ? ?]|Hin]|[[_ ?] ?]]; [done|by left|by right].
Qed.

Lemma document_map_items_nodup : NoDup document_map_items.*1.
Proof. apply (bool_decide_unpack _). vm_compute. exact I. Qed.

Lemma document_map_lookup (document_type processor_type : string) :
  document_map !! document_type = Some processor_type
  ↔ (document_type, processor_type) ∈ document_map_items.
Proof.
  unfold document_map, dict_literal.
  rewrite fold_insert_lookup by apply document_map_items_nodup.
  rewrite lookup_empty. split; [intros [?|[_ [=]]]; done|by left].
Qed.

(** C6: the resolver returns a processor type exactly when the pair of the
    given string and that processor type is an entry of the table, the
    strings compared character by character (so neither another case nor
    a prefix or an extension of a key matches); ["w2"] resolves to
    ["FORM_W2_PROCESSOR"] and ["unknown_type"] to [None]. *)
Theorem document_type_to_processor_type_exact_match :
  (∀ document_type processor_type,
     document_type_to_processor_type document_type = Some processor_type
     ↔ (document_type, processor_type) ∈ document_map_items)
  ∧ document_type_to_processor_type "w2" = Some "FORM_W2_PROCESSOR"
  ∧ document_type_to_processor_type "unknown_type" = None
  ∧ document_type_to_processor_type "W2" = None
  ∧ document_type_to_processor_type "w" = None
  ∧ document_type_to_processor_type "w2_" = None
  ∧ document_type_to_processor_type " w2" = None.
Proof.
  split; [exact document_map_lookup|].
  split_and!; vm_compute; reflexivity.
Qed.

(** C7: a string that is not a key of the table resolves to [None]; the
    resolver is a total function, so no input makes it raise. *)
Theorem document_type_to_processor_type_miss (document_type : string) :
  document_type ∉ document_map_items.*1 →
  document_type_to_processor_type document_type = None.
Proof.
  intros Hmiss. apply eq_None_not_Some. intros [processor_type Hhit].
  apply document_map_lookup in Hhit. apply Hmiss.
  apply list_elem_of_fmap. by exists (document_type, processor_type).
Qed.

Lemma document_type_to_processor_type_miss_witness :
  document_type_to_processor_type "unknown_type" = None.
Proof.
  apply (document_type_to_processor_type_miss "unknown_type").
  apply (bool_decide_unpack _). vm_compute. exact I.
Defined.

(** ** Further properties of [document_type_to_processor_type] *)

(** [key] is [base], an underscore and four more characters, as the
    year-specific document types are named after the general one. *)
Definition variant_of (base key : string) : bool :=
  String.eqb (String.substring 0 (String.length base + 1) key) (base +:+ "_")
  && Nat.eqb (String.length key) (String.length base + 5).

Lemma variant_of_intro (base suffix : string) :
  String.length suffix = 4%nat →
  variant_of base (base +:+ "_" +:+ suffix) = true.
Proof.
  intros Hlen. unfold variant_of. apply andb_true_intro. split.
  - apply String.eqb_eq. induction base as [|a base IH].
    + by destruct suffix.
    + change (String.substring 0 (S (String.length base + 1))
                (String a (base +:+ "_" +:+ suffix))
              = String a (base +:+ "_")).
      cbn [String.substring]. by rewrite IH.
  - apply Nat.eqb_eq. induction base as [|a base IH].
    + change (S (String.length suffix) = 5%nat). by rewrite Hlen.
    + change (S (String.length (base +:+ "_" +:+ suffix))
              = S (String.length base + 5)).
      by rewrite IH.
Qed.

Lemma document_map_items_processors :
  Forall (λ kv : string * string, endswith kv.2 "_PROCESSOR" = true)
    document_map_items.
Proof. apply (bool_decide_unpack _). vm_compute. exact I. Qed.

Lemma document_map_items_variants :
  Forall (λ kv : string * string,
            Forall (λ kv' : string * string,
                      variant_of kv.1 kv'.1 = true → kv'.2 = kv.2)
              document_map_items)
    document_map_items.
Proof. apply (bool_decide_unpack _). vm_compute. exact I. Qed.

(** X9: whatever the resolver returns is a processor type name: it ends
    in ["_PROCESSOR"]. *)
Theorem document_type_to_processor_type_names_processor
    (document_type processor_type : string) :
  document_type_to_processor_type document_type = Some processor_type →
  endswith processor_type "_PROCESSOR" = true.
Proof.
  intros Hhit. apply document_map_lookup in Hhit.
  exact (proj1 (Forall_forall _ _) document_map_items_processors _ Hhit).
Qed.

(** X10: a document type named after another one with an underscore and
    four more characters (a form's year, as in ["w2_2018"] after ["w2"])
    resolves to the same processor type as that one, whenever both
    resolve. *)
Theorem document_type_to_processor_type_variant
    (base suffix processor_type processor_type' : string) :
  String.length suffix = 4%nat →
  document_type_to_processor_type base = Some processor_type →
  document_type_to_processor_type (base +:+ "_" +:+ suffix)
  = Some processor_type' →
  processor_type' = processor_type.
Proof.
  intros Hlen Hbase Hvariant.
  apply document_map_lookup in Hbase, Hvariant.
  pose proof (proj1 (Forall_forall _ _) document_map_items_variants _ Hbase)
    as Hall.
  apply (proj1 (Forall_forall _ _) Hall _ Hvariant).
  by apply variant_of_intro.
Qed.

Lemma document_type_to_processor_type_names_processor_witness :
  endswith "FORM_W2_PROCESSOR" "_PROCESSOR" = true.
Proof.
  apply (document_type_to_processor_type_names_processor "w2").
  vm_compute. reflexivity.
Defined.

Lemma document_type_to_processor_type_variant_witness :
  "FORM_1040SR_PROCESSOR" = "FORM_1040SR_PROCESSOR".
Proof.
  apply (document_type_to_processor_type_variant "1040sr" "2019");
    vm_compute; reflexivity.
Defined.

(** ** Further properties of [create_batches] at the sample configuration *)

Lemma create_batches_trace_witness :
  (create_batches constants.BATCH_MAX_FILES constants.BATCH_MAX_FILE_SIZE
       constants.VALID_MIME_TYPES failing_client "my-bucket" "docs/" 50).1
  = GetStorageClient :: ListBlobs "my-bucket" "docs/"
    :: flat_map
         (diagnostics constants.BATCH_MAX_FILE_SIZE constants.VALID_MIME_TYPES)
         (yielded (list_blobs failing_client "my-bucket" "docs/")).
Proof.
  apply create_batches_trace. unfold constants.BATCH_MAX_FILES. lia.
Defined.

Lemma create_batches_empty_iff_witness :
  (create_batches constants.BATCH_MAX_FILES constants.BATCH_MAX_FILE_SIZE
       constants.VALID_MIME_TYPES (eligible_client 0) "my-bucket" "docs/" 0).2 = Return []
  ↔ accepted constants.BATCH_MAX_FILE_SIZE constants.VALID_MIME_TYPES
      (yielded (list_blobs (eligible_client 0) "my-bucket" "docs/")) = [].
Proof.
  apply create_batches_empty_iff;
    [unfold constants.BATCH_MAX_FILES; lia | reflexivity].
Defined.

Lemma create_batches_negative_batch_size_witness :
  (create_batches constants.BATCH_MAX_FILES constants.BATCH_MAX_FILE_SIZE
       constants.VALID_MIME_TYPES (eligible_client 3) "my-bucket" "docs/" (-1)).2
  = Return
      match map (document_for "my-bucket")
              (accepted constants.BATCH_MAX_FILE_SIZE constants.VALID_MIME_TYPES
                 (yielded (list_blobs (eligible_client 3)
                             "my-bucket" "docs/"))) with
      | [] => []
      | doc :: docs => [descriptor (doc :: docs)]
      end.
Proof.
  apply create_batches_negative_batch_size;
    [lia | unfold constants.BATCH_MAX_FILES; lia | reflexivity].
Defined.

Lemma create_batches_zero_batch_size_witness :
  (create_batches constants.BATCH_MAX_FILES constants.BATCH_MAX_FILE_SIZE
       constants.VALID_MIME_TYPES (eligible_client 3) "my-bucket" "docs/" 0).2
  = Return
      match map (document_for "my-bucket")
              (accepted constants.BATCH_MAX_FILE_SIZE constants.VALID_MIME_TYPES
                 (yielded (list_blobs (eligible_client 3)
                             "my-bucket" "docs/"))) with
      | [] => []
      | doc :: docs => [descriptor []; descriptor (doc :: docs)]
      end.
Proof.
  apply create_batches_zero_batch_size;
    [unfold constants.BATCH_MAX_FILES; lia | reflexivity].
Defined.

Lemma create_batches_single_batch_witness :
  (create_batches constants.BATCH_MAX_FILES constants.BATCH_MAX_FILE_SIZE
       constants.VALID_MIME_TYPES scenario_client "my-bucket" "docs/" 2).2
  = Return
      match map (document_for "my-bucket")
              (accepted constants.BATCH_MAX_FILE_SIZE constants.VALID_MIME_TYPES
                 (yielded (list_blobs scenario_client
                             "my-bucket" "docs/"))) with
      | [] => []
      | doc :: docs => [descriptor (doc :: docs)]
      end.
Proof.
  apply create_batches_single_batch;
    [apply Z.leb_le; vm_compute; reflexivity
    | unfold constants.BATCH_MAX_FILES; lia | reflexivity].
Defined.

Lemma create_batches_extension_witness :
  ∃ batches batches',
    (create_batches constants.BATCH_MAX_FILES constants.BATCH_MAX_FILE_SIZE
       constants.VALID_MIME_TYPES (eligible_client 3) "my-bucket" "docs/" 2).2 = Return batches
    ∧ (create_batches constants.BATCH_MAX_FILES constants.BATCH_MAX_FILE_SIZE
       constants.VALID_MIME_TYPES (client_of (yield_all (eligible_blobs 3 ++ scenario_blobs)
                          StopIteration))
         "my-bucket" "docs/" 2).2 = Return batches'
    ∧ removelast batches `prefix_of` batches'.
Proof.
  apply (create_batches_extension constants.BATCH_MAX_FILES
           constants.BATCH_MAX_FILE_SIZE constants.VALID_MIME_TYPES
           (eligible_client 3)
           (client_of (yield_all (eligible_blobs 3 ++ scenario_blobs)
                         StopIteration))
           "my-bucket" "docs/" 2 (eligible_blobs 3) scenario_blobs);
    [unfold constants.BATCH_MAX_FILES; lia | reflexivity | reflexivity].
Defined.

Lemma create_batches_within_maximum_witness :
  (1 ≤ Z.of_nat
         (length
            (docs_of
               (descriptor
                  [{| gcs_uri := "gs://my-bucket/a.pdf";
                      mime_type := "application/pdf" |};
                   {| gcs_uri := "gs://my-bucket/d.pdf";
                      mime_type := "application/pdf" |}])))
   ≤ constants.BATCH_MAX_FILES)%Z.
Proof.
  apply (create_batches_within_maximum constants.BATCH_MAX_FILES
           constants.BATCH_MAX_FILE_SIZE constants.VALID_MIME_TYPES
           scenario_client "my-bucket" "docs/" 2
           [descriptor
              [{| gcs_uri := "gs://my-bucket/a.pdf";
                  mime_type := "application/pdf" |};
               {| gcs_uri := "gs://my-bucket/d.pdf";
                  mime_type := "application/pdf" |}]]);
    [lia | unfold constants.BATCH_MAX_FILES; lia
    | vm_compute; reflexivity | apply list_elem_of_here].
Defined.

Lemma create_batches_no_duplicates_witness :
  ∃ batches,
    (create_batches constants.BATCH_MAX_FILES constants.BATCH_MAX_FILE_SIZE
       constants.VALID_MIME_TYPES scenario_client "my-bucket" "docs/" 2).2 = Return batches
    ∧ NoDup (concat (map docs_of batches)).
Proof.
  apply create_batches_no_duplicates;
    [unfold constants.BATCH_MAX_FILES; lia | reflexivity
    | apply (bool_decide_unpack _); vm_compute; exact I].
Defined.

Lemma create_batches_app_witness :
  ∃ batches1 batches2,
    (create_batches constants.BATCH_MAX_FILES constants.BATCH_MAX_FILE_SIZE
       constants.VALID_MIME_TYPES (eligible_client 4) "my-bucket" "docs/" 2).2 = Return batches1
    ∧ (create_batches constants.BATCH_MAX_FILES constants.BATCH_MAX_FILE_SIZE
       constants.VALID_MIME_TYPES scenario_client "my-bucket" "docs/" 2).2 = Return batches2
    ∧ (create_batches constants.BATCH_MAX_FILES constants.BATCH_MAX_FILE_SIZE
       constants.VALID_MIME_TYPES (client_of (yield_all (eligible_blobs 4 ++ scenario_blobs)
                          StopIteration))
         "my-bucket" "docs/" 2).2
      = Return (batches1 ++ batches2).
Proof.
  apply (create_batches_app constants.BATCH_MAX_FILES
           constants.BATCH_MAX_FILE_SIZE constants.VALID_MIME_TYPES
           (eligible_client 4) scenario_client
           (client_of (yield_all (eligible_blobs 4 ++ scenario_blobs)
                         StopIteration))
           "my-bucket" "docs/" 2 (eligible_blobs 4) scenario_blobs);
    [lia | unfold constants.BATCH_MAX_FILES; lia | reflexivity | reflexivity
    | reflexivity | vm_compute; reflexivity].
Defined.
